(** * link-to-JSON: a shallow embedding of the metadata-extraction service

    The development follows the two Go programs of the repository:
    - [src/link-to-JSON.go]: the self-contained service ([fetchMetadata],
      [getBaseDomain] and the [/extract] handler of its [main]);
    - the second [main] (package main importing go-link2json): the same
      [/extract] handler with a [URL.ParseRequestURI] validation step, the
      fetcher being [link2json.GetMetadata].

    Libraries the programs call are modelled by what the programs observe
    of them:
    - net/url and the network are an environment [Env] (parsers as
      functions, the network as a time-indexed oracle);
    - colly's collector runs its OnHTML callbacks in registration order,
      each over its matching elements in document order, then OnScraped;
    - go-cache is a finite map from keys to items with an expiration time;
    - x/time/rate's limiter is a token bucket.  [Allow] is the bucket in
      exact arithmetic, with tokens counted in billionths so that one
      nanosecond refills one unit at rate 1/s; [Allow64] is the bucket as
      the library computes it, with float64 tokens and the wait cut to
      whole nanoseconds.  The two differ only when a request is short of
      a token by a nanosecond.
    Pointers to [ResponseItem] are locations in a heap, because the cache
    and the handler share the record they point to. *)

From Stdlib Require Import ZArith Ascii String.
From Stdlib Require PrimFloat FloatOps Uint63.
From stdpp Require Import gmap strings list fin_maps.

Local Open Scope string_scope.
Local Open Scope Z_scope.

(** ** Data model (link-to-JSON.go, lines 20-37) *)

Record WebImage := mkWebImage {
  wi_URL : string;
  wi_Alt : string;
  wi_Type : string;
  wi_Width : Z;
  wi_Height : Z
}.

Record ResponseItem := mkResponseItem {
  Title : string;
  Description : string;
  Images : list WebImage;
  Sitename : string;
  Favicon : string;
  Duration : Z;
  Domain : string;
  URL : string
}.

(** Go's zero values. *)
Definition WebImage_zero : WebImage := mkWebImage "" "" "" 0 0.
Definition ResponseItem_zero : ResponseItem :=
  mkResponseItem "" "" [] "" "" 0 "" "".

(** Field assignments [r.F = v]. *)
Definition set_Title (v : string) (r : ResponseItem) : ResponseItem :=
  mkResponseItem v (Description r) (Images r) (Sitename r) (Favicon r)
                 (Duration r) (Domain r) (URL r).
Definition set_Description (v : string) (r : ResponseItem) : ResponseItem :=
  mkResponseItem (Title r) v (Images r) (Sitename r) (Favicon r)
                 (Duration r) (Domain r) (URL r).
Definition set_Images (v : list WebImage) (r : ResponseItem) : ResponseItem :=
  mkResponseItem (Title r) (Description r) v (Sitename r) (Favicon r)
                 (Duration r) (Domain r) (URL r).
Definition set_Sitename (v : string) (r : ResponseItem) : ResponseItem :=
  mkResponseItem (Title r) (Description r) (Images r) v (Favicon r)
                 (Duration r) (Domain r) (URL r).
Definition set_Favicon (v : string) (r : ResponseItem) : ResponseItem :=
  mkResponseItem (Title r) (Description r) (Images r) (Sitename r) v
                 (Duration r) (Domain r) (URL r).
Definition set_Duration (v : Z) (r : ResponseItem) : ResponseItem :=
  mkResponseItem (Title r) (Description r) (Images r) (Sitename r) (Favicon r)
                 v (Domain r) (URL r).
Definition set_Domain (v : string) (r : ResponseItem) : ResponseItem :=
  mkResponseItem (Title r) (Description r) (Images r) (Sitename r) (Favicon r)
                 (Duration r) v (URL r).

Definition set_wi_URL (v : string) (w : WebImage) : WebImage :=
  mkWebImage v (wi_Alt w) (wi_Type w) (wi_Width w) (wi_Height w).
Definition set_wi_Alt (v : string) (w : WebImage) : WebImage :=
  mkWebImage (wi_URL w) v (wi_Type w) (wi_Width w) (wi_Height w).
Definition set_wi_Type (v : string) (w : WebImage) : WebImage :=
  mkWebImage (wi_URL w) (wi_Alt w) v (wi_Width w) (wi_Height w).
Definition set_wi_Width (v : Z) (w : WebImage) : WebImage :=
  mkWebImage (wi_URL w) (wi_Alt w) (wi_Type w) v (wi_Height w).
Definition set_wi_Height (v : Z) (w : WebImage) : WebImage :=
  mkWebImage (wi_URL w) (wi_Alt w) (wi_Type w) (wi_Width w) v.

(** Two records agree on every field but [Duration]. *)
Definition same_but_Duration (a b : ResponseItem) : Prop :=
  set_Duration 0 a = set_Duration 0 b.

(** ** strconv.Atoi on a 64-bit [int] *)

Definition int_min : Z := - 2 ^ 63.
Definition int_max : Z := 2 ^ 63 - 1.

Definition digit_of (a : ascii) : option Z :=
  let n := Z.of_nat (nat_of_ascii a) in
  if (48 <=? n) && (n <=? 57) then Some (n - 48) else None.

Fixpoint parse_digits (acc : Z) (s : string) : option Z :=
  match s with
  | EmptyString => Some acc
  | String a s' =>
      match digit_of a with
      | Some d => parse_digits (10 * acc + d) s'
      | None => None
      end
  end.

Definition Atoi (s : string) : option Z :=
  let '(neg, body) :=
    match s with
    | String "-"%char r => (true, r)
    | String "+"%char r => (false, r)
    | _ => (false, s)
    end in
  match body with
  | EmptyString => None
  | _ =>
      match parse_digits 0 body with
      | Some n =>
          let v := if neg then - n else n in
          if (int_min <=? v) && (v <=? int_max) then Some v else None
      | None => None
      end
  end.

(** ** Documents and colly's HTML elements

    A parsed document is the sequence of its elements in document order;
    an element has a tag name, attributes and text content. *)

Record HTMLElement := mkElement {
  Name : string;
  Attrs : list (string * string);
  Text : string
}.

Definition Document := list HTMLElement.

(** [e.Attr(k)]: the value of the first attribute named [k], [""] if none. *)
Fixpoint attr_lookup (k : string) (l : list (string * string)) : string :=
  match l with
  | [] => ""
  | (k', v) :: l' => if String.eqb k' k then v else attr_lookup k l'
  end.

Definition Attr (e : HTMLElement) (k : string) : string :=
  attr_lookup k (Attrs e).

Definition content_of (e : HTMLElement) : string := Attr e "content".

Definition href_of (e : HTMLElement) : string := Attr e "href".

Definition nonempty (s : string) : bool := negb (String.eqb s "").

(** Selectors [tag] and [tag[key="val"]]: the attribute test holds when
    some attribute named [key] has exactly the value [val]. *)
Definition has_attr (key val : string) (e : HTMLElement) : bool :=
  existsb (fun kv => String.eqb (fst kv) key && String.eqb (snd kv) val)
          (Attrs e).

Definition sel_tag (tag : string) (e : HTMLElement) : bool :=
  String.eqb (Name e) tag.

Definition sel_attr (tag key val : string) (e : HTMLElement) : bool :=
  String.eqb (Name e) tag && has_attr key val e.

(** The selectors registered by [fetchMetadata]. *)
Definition sel_title : HTMLElement -> bool := sel_tag "title".
Definition sel_description : HTMLElement -> bool :=
  sel_attr "meta" "name" "description".
Definition sel_icon (e : HTMLElement) : bool :=
  sel_attr "link" "rel" "icon" e
  || sel_attr "link" "rel" "shortcut icon" e
  || sel_attr "link" "rel" "apple-touch-icon" e
  || sel_attr "link" "rel" "apple-touch-icon-precomposed" e.
Definition sel_og (prop : string) : HTMLElement -> bool :=
  sel_attr "meta" "property" prop.

(** ** The collector's callbacks (link-to-JSON.go, lines 56-100)

    The closures of [fetchMetadata] share two variables: the record
    [result] and the image under construction [webImage]. *)

Record Scrape := mkScrape {
  result : ResponseItem;
  webImage : WebImage
}.

Definition on_result (f : ResponseItem -> ResponseItem) (s : Scrape) : Scrape :=
  mkScrape (f (result s)) (webImage s).
Definition on_webImage (f : WebImage -> WebImage) (s : Scrape) : Scrape :=
  mkScrape (result s) (f (webImage s)).

Definition Callback := HTMLElement -> Scrape -> Scrape.

Definition cb_title : Callback := fun e s =>
  if String.eqb (Title (result s)) "" then on_result (set_Title (Text e)) s
  else s.

Definition cb_description : Callback := fun e s =>
  on_result (set_Description (Attr e "content")) s.

Definition cb_icon : Callback := fun e s =>
  if String.eqb (Favicon (result s)) ""
  then on_result (set_Favicon (Domain (result s) ++ Attr e "href")) s
  else s.

Definition cb_site_name : Callback := fun e s =>
  on_result (set_Sitename (Attr e "content")) s.

Definition cb_image : Callback := fun e s =>
  on_webImage (set_wi_URL (Attr e "content")) s.
Definition cb_image_alt : Callback := fun e s =>
  on_webImage (set_wi_Alt (Attr e "content")) s.
Definition cb_image_type : Callback := fun e s =>
  on_webImage (set_wi_Type (Attr e "content")) s.
Definition cb_image_width : Callback := fun e s =>
  match Atoi (Attr e "content") with
  | Some width => on_webImage (set_wi_Width width) s
  | None => s
  end.
Definition cb_image_height : Callback := fun e s =>
  match Atoi (Attr e "content") with
  | Some height => on_webImage (set_wi_Height height) s
  | None => s
  end.

(** Lines 56-58: [result := &ResponseItem{URL: url, Images: []WebImage{}}],
    [result.Domain = getBaseDomain(url)], [webImage := WebImage{}]. *)
Definition new_Scrape (url domain : string) : Scrape :=
  mkScrape (mkResponseItem "" "" [] "" "" 0 domain url) WebImage_zero.

(** [c.OnHTML] registrations of the primary collector, in source order. *)
Definition htmlCallbacks : list ((HTMLElement -> bool) * Callback) :=
  [ (sel_title, cb_title);
    (sel_description, cb_description);
    (sel_icon, cb_icon);
    (sel_og "og:site_name", cb_site_name);
    (sel_og "og:image", cb_image);
    (sel_og "og:image:alt", cb_image_alt);
    (sel_og "og:image:type", cb_image_type);
    (sel_og "og:image:width", cb_image_width);
    (sel_og "og:image:height", cb_image_height) ].

(** [c2.OnHTML] of the fallback collector: one matcher only. *)
Definition cb_og_title : Callback := fun e s =>
  on_result (set_Sitename (Attr e "content")) s.

Definition htmlCallbacks2 : list ((HTMLElement -> bool) * Callback) :=
  [ (sel_og "og:title", cb_og_title) ].

(** [c.OnScraped]: the image under construction is appended. *)
Definition onScraped (s : Scrape) : Scrape :=
  on_result (fun r => set_Images (Images r ++ [webImage s]) r) s.

(** One callback over its matching elements, in document order. *)
Definition run_callback (doc : Document) (s : Scrape)
    (cc : (HTMLElement -> bool) * Callback) : Scrape :=
  fold_left (fun s e => snd cc e s) (List.filter (fst cc) doc) s.

(** colly's handleOnHTML: callbacks in registration order. *)
Definition handleOnHTML (cbs : list ((HTMLElement -> bool) * Callback))
    (doc : Document) (s : Scrape) : Scrape :=
  fold_left (run_callback doc) cbs s.

(** What a successful [c.Visit] of the primary collector does to the
    shared variables. *)
Definition scrape_primary (doc : Document) (s : Scrape) : Scrape :=
  onScraped (handleOnHTML htmlCallbacks doc s).

(** What a successful [c2.Visit] does: no OnScraped is registered. *)
Definition scrape_fallback (doc : Document) (s : Scrape) : Scrape :=
  handleOnHTML htmlCallbacks2 doc s.

(** ** The rate limiter (rate.NewLimiter, Limiter.Allow)

    Time is in nanoseconds.  Tokens are counted in billionths of a token,
    so a limit of [r] tokens per second refills [r] units per nanosecond. *)

Definition second : Z := 1000000000.
Definition token : Z := 1000000000.

Record Limiter := mkLimiter {
  lim_limit : Z;
  lim_burst : Z;
  lim_tokens : Z;
  lim_last : Z
}.

(** A new limiter starts with a full bucket. *)
Definition NewLimiter (r b : Z) : Limiter := mkLimiter r b (b * token) 0.

(** [lim.advance(t)]: the tokens available at [t], capped at the burst. *)
Definition advance (lim : Limiter) (t : Z) : Z :=
  let last := if t <? lim_last lim then t else lim_last lim in
  let elapsed := t - last in
  let delta := elapsed * lim_limit lim in
  Z.min (lim_tokens lim + delta) (lim_burst lim * token).

(** [lim.Allow()] at time [t], that is [reserveN(t, 1, 0)]: one token is
    taken when the bucket holds one; the state changes only then. *)
Definition Allow (lim : Limiter) (t : Z) : bool * Limiter :=
  let tokens := advance lim t - token in
  if (0 <=? tokens) && (1 <=? lim_burst lim)
  then (true, mkLimiter (lim_limit lim) (lim_burst lim) tokens t)
  else (false, lim).

(** ** The cache (cache.New, Get, Set, DeleteExpired)

    The cache stores pointers: an item holds a heap location. *)

Definition loc := nat.

Record Item := mkItem {
  Object : loc;
  Expiration : Z
}.

Definition minute : Z := 60 * second.
Definition defaultExpiration : Z := 30 * minute.
Definition cleanupInterval : Z := 60 * minute.

Definition expired (it : Item) (now : Z) : bool :=
  (0 <? Expiration it) && (Expiration it <? now).

Definition cache_Get (c : gmap string Item) (now : Z) (k : string)
    : option loc :=
  match c !! k with
  | Some it => if expired it now then None else Some (Object it)
  | None => None
  end.

Definition cache_Set (c : gmap string Item) (now : Z) (k : string) (p : loc)
    : gmap string Item :=
  <[k := mkItem p (now + defaultExpiration)]> c.

(** The janitor's sweep, every [cleanupInterval]. *)
Definition cache_DeleteExpired (c : gmap string Item) (now : Z)
    : gmap string Item :=
  filter (fun kv => expired (snd kv) now = false) c.

(** ** Process state and environment *)

Record World := mkWorld {
  rateLimiter : Limiter;
  cch : gmap string Item;
  heap : list ResponseItem;
  visited : list string
}.

(** [visited] logs every [Visit] issued (the fetch count of the spec's
    tests); it is written by nothing else. *)

Definition with_limiter (l : Limiter) (w : World) : World :=
  mkWorld l (cch w) (heap w) (visited w).
Definition with_cch (c : gmap string Item) (w : World) : World :=
  mkWorld (rateLimiter w) c (heap w) (visited w).
Definition with_heap (h : list ResponseItem) (w : World) : World :=
  mkWorld (rateLimiter w) (cch w) h (visited w).
Definition log_visit (u : string) (w : World) : World :=
  mkWorld (rateLimiter w) (cch w) (heap w) (visited w ++ [u]).

(** The package-level variables of the program (lines 39-43). *)
Definition initial_World : World :=
  mkWorld (NewLimiter 1 3) ∅ [] [].

(** net/url and the network.  [URL_Parse] gives the scheme and host of a
    parsed URL; [URL_ParseRequestURI] tells whether validation succeeds;
    [http_get t u] is the document a collector obtains for [u] at time
    [t], [None] when [Visit] returns an error. *)
Record Env := mkEnv {
  URL_Parse : string -> option (string * string);
  URL_ParseRequestURI : string -> bool;
  http_get : Z -> string -> option Document
}.

(** A request: [c.Query("url")] (empty when the parameter is missing) and
    the two instants the handler observes.  [t_start] is when the request
    arrives: [Allow], [startTime := time.Now()], the cache lookup and the
    fetches read it.  [t_end] is when the handler completes: [cch.Set] and
    [time.Since(startTime)] read it. *)
Record Request := mkRequest {
  query_url : string;
  t_start : Z;
  t_end : Z
}.

(** [c.JSON(code, gin.H{"error": msg})] and [c.JSON(code, metadata)]. *)
Inductive Response :=
| JSON_error (code : Z) (error : string)
| JSON_metadata (code : Z) (body : ResponseItem).

Definition StatusOK : Z := 200.
Definition StatusBadRequest : Z := 400.
Definition StatusTooManyRequests : Z := 429.
Definition StatusInternalServerError : Z := 500.

(** [p.Duration = v] through a pointer. *)
Definition store_Duration (p : loc) (v : Z) (h : list ResponseItem)
    : list ResponseItem :=
  match h !! p with
  | Some r => <[p := set_Duration v r]> h
  | None => h
  end.

Definition deref (h : list ResponseItem) (p : loc) : ResponseItem :=
  default ResponseItem_zero (h !! p).

Section Program.

Variable env : Env.

(** link-to-JSON.go, lines 130-137 *)
Definition getBaseDomain (url : string) : string :=
  match URL_Parse env url with
  | None => ""
  | Some (scheme, host) => scheme ++ "://" ++ host
  end.

(** The shared variables after a successful primary [Visit] of [url]. *)
Definition primary_result (url : string) (doc : Document) : Scrape :=
  scrape_primary doc (new_Scrape url (getBaseDomain url)).

(** [cch.Set(url, result, cache.DefaultExpiration)]: the record becomes
    shared here, so this is where it is placed in the heap. *)
Definition cache_result (url : string) (now : Z) (s : Scrape) (w : World)
    : option loc * World :=
  let p := length (heap w) in
  (Some p,
   with_cch (cache_Set (cch w) now url p) (with_heap (heap w ++ [result s]) w)).

(** link-to-JSON.go, lines 45-128.  The cache is read at [now]; the
    record is stored at [now']. *)
Definition fetchMetadata (url : string) (now now' : Z) (w : World)
    : option loc * World :=
  match cache_Get (cch w) now url with
  | Some p => (Some p, w)
  | None =>
      let w1 := log_visit url w in
      match http_get env now url with
      | None => (None, w1)
      | Some doc =>
          let s1 := primary_result url doc in
          if String.eqb (Sitename (result s1)) "" then
            let w2 := log_visit (Domain (result s1)) w1 in
            match http_get env now (Domain (result s1)) with
            | None => (None, w2)
            | Some doc2 => cache_result url now' (scrape_fallback doc2 s1) w2
            end
          else cache_result url now' s1 w1
      end
  end.

(** [int(time.Since(startTime).Milliseconds())] *)
Definition elapsed_ms (req : Request) : Z :=
  Z.quot (t_end req - t_start req) 1000000.

(** The tail both handlers share: the fetcher's answer is turned into a
    response, the duration being written through the returned pointer. *)
Definition respond (req : Request) (r : option loc * World)
    : Response * World :=
  match r with
  | (None, w) =>
      (JSON_error StatusInternalServerError "Failed to fetch metadata", w)
  | (Some p, w) =>
      let h := store_Duration p (elapsed_ms req) (heap w) in
      (JSON_metadata StatusOK (deref h p), with_heap h w)
  end.

(** The [/extract] handler of link-to-JSON.go, lines 160-183. *)
Definition extract (w : World) (req : Request) : Response * World :=
  let '(ok, lim) := Allow (rateLimiter w) (t_start req) in
  if negb ok then
    (JSON_error StatusTooManyRequests "Too many requests", w)
  else
    let w := with_limiter lim w in
    let url := query_url req in
    if String.eqb url "" then
      (JSON_error StatusBadRequest "URL parameter is required", w)
    else
      respond req (fetchMetadata url (t_start req) (t_end req) w).

(** The [/extract] handler of the second program (lines 49-81), over the
    fetcher [GetMetadata] of go-link2json. *)
Definition extract_validating
    (GetMetadata : string -> Z -> Z -> World -> option loc * World)
    (w : World) (req : Request) : Response * World :=
  let '(ok, lim) := Allow (rateLimiter w) (t_start req) in
  if negb ok then
    (JSON_error StatusTooManyRequests "Too many requests", w)
  else
    let w := with_limiter lim w in
    let url := query_url req in
    if String.eqb url "" then
      (JSON_error StatusBadRequest "URL parameter is required", w)
    else if negb (URL_ParseRequestURI env url) then
      (JSON_error StatusBadRequest "Invalid URL", w)
    else
      respond req (GetMetadata url (t_start req) (t_end req) w).

(** The two programs of the repository: the self-contained one, and the
    one that validates the URL and calls the fetcher as a library; the
    library's fetcher is taken to be [fetchMetadata]. *)
Inductive Program := Standalone | WithLibrary.

Definition handler (P : Program) : World -> Request -> Response * World :=
  match P with
  | Standalone => extract
  | WithLibrary => extract_validating fetchMetadata
  end.

(** Whether the program lets [url] through to the fetcher. *)
Definition validates (P : Program) (url : string) : bool :=
  match P with
  | Standalone => true
  | WithLibrary => URL_ParseRequestURI env url
  end.

(** A miss for [url] at time [now] cannot complete: the primary fetch
    fails, or it names no site and the fallback fetch fails. *)
Definition fetch_fails (now : Z) (url : string) : Prop :=
  match http_get env now url with
  | None => True
  | Some doc =>
      Sitename (result (primary_result url doc)) = "" /\
      http_get env now (getBaseDomain url) = None
  end.

(** A sequence of requests served one after the other. *)
Fixpoint serve (handler : World -> Request -> Response * World)
    (w : World) (reqs : list Request) : list Response * World :=
  match reqs with
  | [] => ([], w)
  | req :: reqs' =>
      let '(resp, w1) := handler w req in
      let '(resps, w2) := serve handler w1 reqs' in
      (resp :: resps, w2)
  end.

End Program.

(** The limiter alone over a sequence of arrival times. *)
Fixpoint allows (lim : Limiter) (ts : list Z) : list bool * Limiter :=
  match ts with
  | [] => ([], lim)
  | t :: ts' =>
      let '(ok, lim1) := Allow lim t in
      let '(oks, lim2) := allows lim1 ts' in
      (ok :: oks, lim2)
  end.

(** ** The limiter as x/time/rate computes it

    The library holds [tokens] as a float64.  [d.Seconds()] splits a
    duration into whole seconds and nanoseconds; the wait for missing
    tokens is converted back to a duration, which drops the fraction of
    a nanosecond; [Allow] passes when that wait is zero. *)

Definition float64_of_int (z : Z) : PrimFloat.float :=
  if z <? 0 then PrimFloat.opp (PrimFloat.of_uint63 (Uint63.of_Z (- z)))
  else PrimFloat.of_uint63 (Uint63.of_Z z).

(** Go's conversion of a float64 to an integer: towards zero. *)
Definition int_of_float64 (f : PrimFloat.float) : Z :=
  match FloatOps.Prim2SF f with
  | SpecFloat.S754_finite s m e =>
      let a := if 0 <=? e then Z.pos m * 2 ^ e
               else Z.quot (Z.pos m) (2 ^ (- e)) in
      if s then - a else a
  | _ => 0
  end.

(** [d.Seconds()] *)
Definition Seconds (d : Z) : PrimFloat.float :=
  PrimFloat.add (float64_of_int (Z.quot d second))
    (PrimFloat.div (float64_of_int (Z.rem d second))
                   (float64_of_int 1000000000)).

(** [limit.tokensFromDuration(d)] and [limit.durationFromTokens(tokens)] *)
Definition tokensFromDuration (limit d : Z) : PrimFloat.float :=
  PrimFloat.mul (Seconds d) (float64_of_int limit).

Definition durationFromTokens (limit : Z) (tokens : PrimFloat.float) : Z :=
  int_of_float64
    (PrimFloat.mul (PrimFloat.div tokens (float64_of_int limit))
                   (float64_of_int second)).

Record Limiter64 := mkLimiter64 {
  lim64_limit : Z;
  lim64_burst : Z;
  lim64_tokens : PrimFloat.float;
  lim64_last : Z
}.

Definition NewLimiter64 (r b : Z) : Limiter64 :=
  mkLimiter64 r b (float64_of_int b) 0.

(** [lim.advance(t)] *)
Definition advance64 (lim : Limiter64) (t : Z) : PrimFloat.float :=
  let last := if t <? lim64_last lim then t else lim64_last lim in
  let elapsed := t - last in
  let delta := tokensFromDuration (lim64_limit lim) elapsed in
  let tokens := PrimFloat.add (lim64_tokens lim) delta in
  let burst := float64_of_int (lim64_burst lim) in
  if PrimFloat.ltb burst tokens then burst else tokens.

(** [lim.Allow()] at time [t], that is [reserveN(t, 1, 0)]. *)
Definition Allow64 (lim : Limiter64) (t : Z) : bool * Limiter64 :=
  let tokens := PrimFloat.sub (advance64 lim t) (float64_of_int 1) in
  let waitDuration :=
    if PrimFloat.ltb tokens (float64_of_int 0)
    then durationFromTokens (lim64_limit lim) (PrimFloat.opp tokens)
    else 0 in
  if (1 <=? lim64_burst lim) && (waitDuration <=? 0)
  then (true, mkLimiter64 (lim64_limit lim) (lim64_burst lim) tokens t)
  else (false, lim).

Fixpoint allows64 (lim : Limiter64) (ts : list Z) : list bool * Limiter64 :=
  match ts with
  | [] => ([], lim)
  | t :: ts' =>
      let '(ok, lim1) := Allow64 lim t in
      let '(oks, lim2) := allows64 lim1 ts' in
      (ok :: oks, lim2)
  end.

Definition too_many_requests : Response :=
  JSON_error StatusTooManyRequests "Too many requests".

Definition is_too_many_requests (r : Response) : bool :=
  match r with
  | JSON_error code msg =>
      (code =? StatusTooManyRequests) && String.eqb msg "Too many requests"
  | JSON_metadata _ _ => false
  end.

(** ** Example documents and environments *)

Definition meta_name (name content : string) : HTMLElement :=
  mkElement "meta" [("name", name); ("content", content)] "".
Definition meta_property (prop content : string) : HTMLElement :=
  mkElement "meta" [("property", prop); ("content", content)] "".
Definition title_elem (text : string) : HTMLElement :=
  mkElement "title" [] text.
Definition link_rel (rel href : string) : HTMLElement :=
  mkElement "link" [("rel", rel); ("href", href)] "".

(** A page with two description tags, an icon and no og:site_name. *)
Definition page_doc : Document :=
  [ title_elem "Foo";
    meta_name "description" "first";
    link_rel "icon" "/favicon.ico";
    meta_property "og:image:width" "abc";
    meta_name "description" "second" ].

(** The root page of the site, carrying an og:title. *)
Definition root_doc : Document :=
  [ title_elem "Home"; meta_property "og:title" "Example Site" ].

(** A page that names its site. *)
Definition named_doc : Document :=
  [ title_elem "Bar"; meta_property "og:site_name" "Example";
    meta_property "og:image" "http://example.com/a.png" ].

(** A small web: two pages and the root of their site; every other
    address fails.  URLs of the form [http://example.com...] parse. *)
Definition example_get (t : Z) (u : string) : option Document :=
  if String.eqb u "http://example.com/page" then Some page_doc
  else if String.eqb u "http://example.com/named" then Some named_doc
  else if String.eqb u "http://example.com" then Some root_doc
  else None.

Definition example_Parse (u : string) : option (string * string) :=
  if String.prefix "http://example.com" u then Some ("http", "example.com")
  else None.

Definition example_env : Env :=
  mkEnv example_Parse
        (fun u => match example_Parse u with Some _ => true | None => false end)
        example_get.

Definition page_url : string := "http://example.com/page".
Definition named_url : string := "http://example.com/named".
Definition missing_url : string := "http://example.com/missing".
Definition unparsed_url : string := "http://exa mple.com/page".

(** Requests: times in nanoseconds. *)
Definition millisecond : Z := 1000000.
Definition first_request : Request := mkRequest page_url 0 (5 * millisecond).
Definition second_request : Request :=
  mkRequest page_url (6 * millisecond) (13 * millisecond).
Definition invalid_request : Request := mkRequest "not-a-url" 0 millisecond.
Definition missing_request : Request := mkRequest missing_url 0 millisecond.
Definition empty_request : Request := mkRequest "" 0 millisecond.
Definition request_at (t : Z) : Request := mkRequest "" t (t + millisecond).

(** colly's [Visit] parses the address with [URL.Parse] before it sends
    anything, and returns the parse error: an address that does not parse
    is never served. *)
Definition visit_parses (env : Env) : Prop :=
  forall t u, URL_Parse env u = None -> http_get env t u = None.

Definition unparsed_request : Request := mkRequest unparsed_url 0 millisecond.

(** ** Notions used to state what the record holds *)

(** The first non-empty string of a list, [""] when there is none. *)
Definition first_nonempty (l : list string) : string :=
  default "" (head (List.filter nonempty l)).

(** The content attribute of the last element a selector matches. *)
Definition last_content (sel : HTMLElement -> bool) (doc : Document) : string :=
  default "" (content_of <$> last (List.filter sel doc)).

(** The last content a selector matches that [Atoi] accepts, 0 if none. *)
Definition last_int (sel : HTMLElement -> bool) (doc : Document) : Z :=
  default 0 (last (omap (fun e => Atoi (content_of e)) (List.filter sel doc))).

(** Every cache entry points to a record made for its key. *)
Definition cache_wf (env : Env) (w : World) : Prop :=
  forall k it, cch w !! k = Some it ->
    exists r, heap w !! Object it = Some r /\
      URL r = k /\ Domain r = getBaseDomain env k /\
      length (Images r) = 1%nat.

(** Arrival times at least one second apart. *)
Fixpoint spaced (ts : list Z) : Prop :=
  match ts with
  | t1 :: ((t2 :: _) as rest) => t1 + second <= t2 /\ spaced rest
  | _ => True
  end.




(** A page with image tags: two widths, the second unparsable. *)
Definition image_doc : Document :=
  [ title_elem ""; title_elem "Pictures"; title_elem "Other";
    meta_property "og:site_name" "Gallery";
    link_rel "apple-touch-icon" "/touch.png";
    link_rel "icon" "/favicon.ico";
    meta_property "og:image" "http://example.com/a.png";
    meta_property "og:image" "http://example.com/b.png";
    meta_property "og:image:alt" "A picture";
    meta_property "og:image:width" "640";
    meta_property "og:image:width" "abc";
    meta_property "og:image:height" "tall" ].

Definition image_url : string := "http://example.com/images".

(** The small web, with the image page added. *)
Definition gallery_env : Env :=
  mkEnv example_Parse
        (fun u => match example_Parse u with Some _ => true | None => false end)
        (fun t u => if String.eqb u image_url then Some image_doc
                    else example_get t u).

(** A request for the page after its cache entry has expired. *)
Definition late_request : Request :=
  mkRequest page_url (31 * minute) (31 * minute + 4 * millisecond).

(** * Properties *)

(** ** The extractor *)

Section Extractor.

(** A callback that leaves an observation [f] alone leaves it alone over
    a whole document. *)
Lemma run_callback_preserves {A} (f : Scrape -> A) sel (cb : Callback) doc s :
  (forall e s, f (cb e s) = f s) ->
  f (run_callback doc s (sel, cb)) = f s.
Proof.
  intros Hcb. unfold run_callback. simpl.
  generalize (List.filter sel doc). intros l. revert s.
  induction l as [|e l IH]; intros s; simpl; [done|].
  rewrite IH. apply Hcb.
Qed.

(** A callback that overwrites: the last matching element decides. *)
Lemma run_callback_overwrite {A} (f : Scrape -> A) (g : HTMLElement -> A)
    sel (cb : Callback) doc s :
  (forall e s, f (cb e s) = g e) ->
  f (run_callback doc s (sel, cb)) = default (f s) (g <$> last (List.filter sel doc)).
Proof.
  intros Hcb. unfold run_callback. simpl.
  generalize (List.filter sel doc). intros l.
  induction l as [|e l IH] using rev_ind; [done|].
  rewrite fold_left_app, last_snoc. simpl. apply Hcb.
Qed.

Lemma cb_title_Description e s :
  Description (result (cb_title e s)) = Description (result s).
Proof. unfold cb_title. by case_match. Qed.

Lemma cb_icon_Description e s :
  Description (result (cb_icon e s)) = Description (result s).
Proof. unfold cb_icon. by case_match. Qed.

Lemma cb_width_result e s : result (cb_image_width e s) = result s.
Proof. unfold cb_image_width. by case_match. Qed.

Lemma cb_height_result e s : result (cb_image_height e s) = result s.
Proof. unfold cb_image_height. by case_match. Qed.

Lemma cb_title_Images e s : Images (result (cb_title e s)) = Images (result s).
Proof. unfold cb_title. by case_match. Qed.

Lemma cb_icon_Images e s : Images (result (cb_icon e s)) = Images (result s).
Proof. unfold cb_icon. by case_match. Qed.

(** The description after the primary pass: the content of the last
    matching element, the previous value when none matches. *)
Lemma scrape_primary_Description doc s :
  Description (result (scrape_primary doc s))
  = default (Description (result s))
            ((fun e => Attr e "content") <$> last (List.filter sel_description doc)).
Proof.
  unfold scrape_primary, handleOnHTML, htmlCallbacks. simpl.
  repeat (rewrite (run_callback_preserves (fun s => Description (result s)));
          [| by (intros; first [ by rewrite ?cb_width_result, ?cb_height_result
                               | apply cb_icon_Description ]) ]).
  rewrite (run_callback_overwrite (fun s => Description (result s))
             (fun e => Attr e "content")); [|done].
  by rewrite (run_callback_preserves (fun s => Description (result s)))
    by apply cb_title_Description.
Qed.

(** The image sequence after the primary pass: one descriptor more. *)
Lemma scrape_primary_Images doc s :
  Images (result (scrape_primary doc s))
  = (Images (result s) ++ [webImage (handleOnHTML htmlCallbacks doc s)])%list.
Proof.
  unfold scrape_primary, onScraped. simpl. f_equal.
  unfold handleOnHTML, htmlCallbacks. simpl.
  repeat (rewrite (run_callback_preserves (fun s => Images (result s)));
          [| by (intros; first [ by rewrite ?cb_width_result, ?cb_height_result
                               | apply cb_icon_Images | apply cb_title_Images ]) ]).
  done.
Qed.

(** The fallback pass touches the site name only, and sets it from the
    last og:title. *)
Lemma scrape_fallback_spec doc s :
  scrape_fallback doc s
  = on_result
      (set_Sitename
         (default (Sitename (result s))
            ((fun e => Attr e "content") <$> last (List.filter (sel_og "og:title") doc))))
      s.
Proof.
  unfold scrape_fallback, handleOnHTML, htmlCallbacks2, run_callback. simpl.
  generalize (List.filter (sel_og "og:title") doc). intros l.
  induction l as [|e l IH] using rev_ind.
  - by destruct s as [[] ?].
  - rewrite fold_left_app, last_snoc. simpl. rewrite IH.
    by destruct s as [[] ?].
Qed.

End Extractor.

(** ** The fetcher *)

Section Fetcher.

Variable env : Env.

Lemma deref_alloc h r : deref (h ++ [r])%list (length h) = r.
Proof. unfold deref. by rewrite list_lookup_middle. Qed.

Lemma fetchMetadata_hit url now now' w p :
  cache_Get (cch w) now url = Some p ->
  fetchMetadata env url now now' w = (Some p, w).
Proof. intros H. unfold fetchMetadata. by rewrite H. Qed.

(** The outcomes of a cache miss, by the answers of the network. *)
Lemma fetchMetadata_primary_error url now now' w :
  cache_Get (cch w) now url = None ->
  http_get env now url = None ->
  fetchMetadata env url now now' w = (None, log_visit url w).
Proof. intros Hc Hg. unfold fetchMetadata. by rewrite Hc, Hg. Qed.

Lemma fetchMetadata_named url now now' w doc :
  cache_Get (cch w) now url = None ->
  http_get env now url = Some doc ->
  Sitename (result (primary_result env url doc)) <> "" ->
  fetchMetadata env url now now' w
  = cache_result url now' (primary_result env url doc) (log_visit url w).
Proof.
  intros Hc Hg Hs. unfold fetchMetadata. rewrite Hc, Hg.
  destruct (String.eqb_spec (Sitename (result (primary_result env url doc))) "");
    [done|done].
Qed.

Lemma fetchMetadata_fallback_error url now now' w doc :
  cache_Get (cch w) now url = None ->
  http_get env now url = Some doc ->
  Sitename (result (primary_result env url doc)) = "" ->
  http_get env now (Domain (result (primary_result env url doc))) = None ->
  fetchMetadata env url now now' w
  = (None, log_visit (Domain (result (primary_result env url doc)))
             (log_visit url w)).
Proof.
  intros Hc Hg Hs Hg2. unfold fetchMetadata. rewrite Hc, Hg.
  by rewrite Hs, Hg2.
Qed.

Lemma fetchMetadata_fallback url now now' w doc doc2 :
  cache_Get (cch w) now url = None ->
  http_get env now url = Some doc ->
  Sitename (result (primary_result env url doc)) = "" ->
  http_get env now (Domain (result (primary_result env url doc))) = Some doc2 ->
  fetchMetadata env url now now' w
  = cache_result url now' (scrape_fallback doc2 (primary_result env url doc))
      (log_visit (Domain (result (primary_result env url doc)))
         (log_visit url w)).
Proof.
  intros Hc Hg Hs Hg2. unfold fetchMetadata. rewrite Hc, Hg.
  by rewrite Hs, Hg2.
Qed.

(** The domain of the record is the one computed from the URL: no
    callback writes it. *)
Lemma primary_result_Domain url doc :
  Domain (result (primary_result env url doc)) = getBaseDomain env url.
Proof.
  unfold primary_result, scrape_primary, onScraped, handleOnHTML, htmlCallbacks.
  simpl.
  repeat (rewrite (run_callback_preserves (fun s => Domain (result s)));
          [| by (intros e s; first
                   [ by rewrite ?cb_width_result, ?cb_height_result
                   | by (unfold cb_icon; case_match)
                   | by (unfold cb_title; case_match) ]) ]).
  done.
Qed.

(** A successful miss: the record is new, it is the primary result up to
    its site name, and the cache maps [url] to it. *)
Lemma fetchMetadata_miss_inv url now now' w doc p w' :
  cache_Get (cch w) now url = None ->
  http_get env now url = Some doc ->
  fetchMetadata env url now now' w = (Some p, w') ->
  exists name,
    p = length (heap w) /\
    heap w' = (heap w ++ [set_Sitename name (result (primary_result env url doc))])%list /\
    cch w' = cache_Set (cch w) now' url p /\
    rateLimiter w' = rateLimiter w.
Proof.
  intros Hc Hg Hf.
  destruct (String.eqb_spec (Sitename (result (primary_result env url doc))) "")
    as [Hs|Hs].
  - destruct (http_get env now (Domain (result (primary_result env url doc))))
      as [doc2|] eqn:Hg2.
    + rewrite (fetchMetadata_fallback _ _ _ _ _ _ Hc Hg Hs Hg2) in Hf.
      rewrite scrape_fallback_spec in Hf.
      unfold cache_result in Hf. simpl in Hf. injection Hf as <- <-.
      eexists. simpl. done.
    + by rewrite (fetchMetadata_fallback_error _ _ _ _ _ Hc Hg Hs Hg2) in Hf.
  - rewrite (fetchMetadata_named _ _ _ _ _ Hc Hg Hs) in Hf.
    unfold cache_result in Hf. simpl in Hf. injection Hf as <- <-.
    exists (Sitename (result (primary_result env url doc))). simpl.
    split; [done|]. split; [|done].
    by destruct (result (primary_result env url doc)).
Qed.

(** Whatever happens, the fetcher leaves the limiter alone, only extends
    the heap, and changes the cache only when it returns a record. *)
Lemma fetchMetadata_frame url now now' w o w' :
  fetchMetadata env url now now' w = (o, w') ->
  rateLimiter w' = rateLimiter w /\
  (exists l, heap w' = (heap w ++ l)%list) /\
  (o = None -> cch w' = cch w /\ heap w' = heap w).
Proof.
  unfold fetchMetadata. intros Hf.
  destruct (cache_Get (cch w) now url) as [q|].
  { injection Hf as <- <-. split; [done|]. split; [|done].
    exists []. by rewrite app_nil_r. }
  destruct (http_get env now url) as [doc|].
  2:{ injection Hf as <- <-. split; [done|]. split; [|done].
      exists []. by rewrite app_nil_r. }
  destruct (String.eqb _ "").
  - destruct (http_get env now _) as [doc2|].
    + unfold cache_result in Hf. injection Hf as <- <-. simpl.
      split; [done|]. split; [eauto|done].
    + injection Hf as <- <-. split; [done|]. split; [|done].
      exists []. by rewrite app_nil_r.
  - unfold cache_result in Hf. injection Hf as <- <-. simpl.
    split; [done|]. split; [eauto|done].
Qed.

End Fetcher.

(** ** Claims about the fetched record *)

Section FetchedRecord.

Variable env : Env.

(** C9. The description of a freshly fetched record is last-match-wins:
    it is the content attribute of the last [meta[name="description"]]
    element of the document; it is the empty string when the document has
    no such element, and the content of the second of two such tags. *)
Theorem description_last_match_wins url now now' w doc p w' :
  cache_Get (cch w) now url = None ->
  http_get env now url = Some doc ->
  fetchMetadata env url now now' w = (Some p, w') ->
  Description (deref (heap w') p)
    = default "" (content_of <$> last (List.filter sel_description doc)) /\
  (Forall (fun e => sel_description e = false) doc ->
   Description (deref (heap w') p) = "") /\
  (forall pre mid post e1 e2,
     doc = (pre ++ e1 :: mid ++ e2 :: post)%list ->
     sel_description e1 = true -> sel_description e2 = true ->
     Forall (fun e => sel_description e = false) post ->
     Description (deref (heap w') p) = content_of e2).
Proof.
  intros Hc Hg Hf.
  destruct (fetchMetadata_miss_inv env _ _ _ _ _ _ _ Hc Hg Hf)
    as (name & -> & Hh & _ & _).
  rewrite Hh, deref_alloc. cbn [Description set_Sitename].
  unfold primary_result. rewrite scrape_primary_Description. simpl.
  fold content_of.
  split; [done|]. split.
  - intros Hnone.
    replace (List.filter sel_description doc) with (@nil HTMLElement); [done|].
    symmetry. clear -Hnone. induction Hnone as [|e l He _ IH]; [done|].
    simpl. by rewrite He.
  - intros pre mid post e1 e2 -> _ He2 Hpost.
    rewrite List.filter_app. simpl List.filter at 2.
    destruct (sel_description e1); rewrite ?List.filter_app; simpl;
      rewrite He2.
    all: replace (List.filter sel_description post) with (@nil HTMLElement)
      by (symmetry; clear -Hpost; induction Hpost as [|e l He _ IH];
          [done | simpl; by rewrite He]).
    all: rewrite ?app_comm_cons, ?app_assoc; by rewrite last_snoc.
Qed.

(** C8. A successful primary pass appends exactly one image descriptor,
    whatever the document contains, so the image sequence of a freshly
    fetched record has length exactly 1. *)
Theorem one_image_descriptor_per_fetch url now now' w doc p w' :
  cache_Get (cch w) now url = None ->
  http_get env now url = Some doc ->
  fetchMetadata env url now now' w = (Some p, w') ->
  (forall s, Images (result (scrape_primary doc s))
             = (Images (result s)
                ++ [webImage (handleOnHTML htmlCallbacks doc s)])%list) /\
  Images (deref (heap w') p)
    = [webImage (handleOnHTML htmlCallbacks doc
                   (new_Scrape url (getBaseDomain env url)))] /\
  length (Images (deref (heap w') p)) = 1%nat.
Proof.
  intros Hc Hg Hf.
  destruct (fetchMetadata_miss_inv env _ _ _ _ _ _ _ Hc Hg Hf)
    as (name & -> & Hh & _ & _).
  rewrite Hh, deref_alloc. cbn [Images set_Sitename].
  unfold primary_result. rewrite scrape_primary_Images. simpl.
  split; [|done]. intros s. apply scrape_primary_Images.
Qed.

(** C7. After a successful primary fetch the fallback is issued exactly
    when the site name is still empty: with a site name, [url] is the
    only address visited and the record is the primary result; without
    one, the domain root is visited once more, and the record is the
    primary result with its site name set from the last og:title of that
    document, or left empty when it has none. *)
Theorem fallback_fetch_iff_sitename_empty url now now' w doc :
  cache_Get (cch w) now url = None ->
  http_get env now url = Some doc ->
  let s1 := primary_result env url doc in
  let out := fetchMetadata env url now now' w in
  (Sitename (result s1) <> "" ->
     visited (snd out) = (visited w ++ [url])%list /\
     exists p, fst out = Some p /\ deref (heap (snd out)) p = result s1) /\
  (Sitename (result s1) = "" ->
     visited (snd out) = (visited w ++ [url; getBaseDomain env url])%list /\
     forall doc2, http_get env now (getBaseDomain env url) = Some doc2 ->
       exists p, fst out = Some p /\
         deref (heap (snd out)) p
         = set_Sitename
             (default "" (content_of <$> last (List.filter (sel_og "og:title") doc2)))
             (result s1)).
Proof.
  intros Hc Hg s1 out. subst s1 out. split; intros Hs.
  - rewrite (fetchMetadata_named env _ _ _ _ _ Hc Hg Hs).
    unfold cache_result. cbn [fst snd visited heap]. split; [done|].
    eexists. split; [done|]. apply deref_alloc.
  - pose proof (primary_result_Domain env url doc) as Hd.
    destruct (http_get env now (getBaseDomain env url)) as [doc2|] eqn:Hg2.
    + rewrite <- Hd in Hg2.
      rewrite (fetchMetadata_fallback env _ _ _ _ _ _ Hc Hg Hs Hg2).
      unfold cache_result.
      cbn [fst snd visited heap with_cch with_heap log_visit].
      rewrite Hd, <- app_assoc. split; [done|].
      intros ? [= <-]. eexists. split; [done|].
      rewrite deref_alloc, scrape_fallback_spec.
      cbn [result on_result]. by rewrite Hs.
    + rewrite <- Hd in Hg2.
      rewrite (fetchMetadata_fallback_error env _ _ _ _ _ Hc Hg Hs Hg2).
      cbn [fst snd visited log_visit].
      rewrite Hd, <- app_assoc. split; [done|]. intros ? [=].
Qed.

End FetchedRecord.

(** ** The handlers *)

Section Handlers.

Variable env : Env.

(** Both handlers, as one decision list. *)
Lemma handler_unfold P w req :
  handler env P w req
  = let '(ok, lim) := Allow (rateLimiter w) (t_start req) in
    if negb ok then (too_many_requests, w)
    else if String.eqb (query_url req) "" then
      (JSON_error StatusBadRequest "URL parameter is required",
       with_limiter lim w)
    else if negb (validates env P (query_url req)) then
      (JSON_error StatusBadRequest "Invalid URL", with_limiter lim w)
    else
      respond req (fetchMetadata env (query_url req) (t_start req)
                     (t_end req) (with_limiter lim w)).
Proof.
  destruct P; unfold handler, extract, extract_validating, validates;
    destruct (Allow (rateLimiter w) (t_start req)) as [[] lim]; simpl; done.
Qed.

Lemma handler_denied P w req :
  fst (Allow (rateLimiter w) (t_start req)) = false ->
  handler env P w req = (too_many_requests, w).
Proof.
  intros H. rewrite handler_unfold.
  destruct (Allow (rateLimiter w) (t_start req)) as [ok lim].
  simpl in H. by subst ok.
Qed.

Lemma handler_let_in P w req lim :
  Allow (rateLimiter w) (t_start req) = (true, lim) ->
  query_url req <> "" ->
  validates env P (query_url req) = true ->
  handler env P w req
  = respond req (fetchMetadata env (query_url req) (t_start req)
                   (t_end req) (with_limiter lim w)).
Proof.
  intros Ha Hu Hv. rewrite handler_unfold, Ha, Hv. simpl.
  by destruct (String.eqb_spec (query_url req) "").
Qed.

(** Whatever the fetcher, the validating handler never calls it on a URL
    that [URL.ParseRequestURI] rejects. *)
Lemma extract_validating_rejects GetMetadata w req lim :
  Allow (rateLimiter w) (t_start req) = (true, lim) ->
  query_url req <> "" ->
  URL_ParseRequestURI env (query_url req) = false ->
  extract_validating env GetMetadata w req
  = (JSON_error StatusBadRequest "Invalid URL", with_limiter lim w).
Proof.
  intros Ha Hu Hv. unfold extract_validating. rewrite Ha, Hv. simpl.
  by destruct (String.eqb_spec (query_url req) "").
Qed.

Lemma Allow_false lim t lim' : Allow lim t = (false, lim') -> lim' = lim.
Proof. unfold Allow. case_match; by intros [= <-]. Qed.

Lemma Allow_true lim t lim' :
  Allow lim t = (true, lim') ->
  lim' = mkLimiter (lim_limit lim) (lim_burst lim) (advance lim t - token) t /\
  token <= advance lim t.
Proof.
  unfold Allow. case_match eqn:H; intros [= <-]. split; [done|].
  apply andb_prop in H as [H _]. lia.
Qed.

(** Writing the duration keeps every other field of every record. *)
Lemma store_Duration_lookup p v h q r :
  h !! q = Some r ->
  exists r', store_Duration p v h !! q = Some r' /\
    same_but_Duration r r' /\
    (r' = r \/ (q = p /\ r' = set_Duration v r)).
Proof.
  intros Hq. unfold store_Duration.
  destruct (h !! p) as [rp|] eqn:Hp.
  2:{ exists r. by repeat split; [..|left]. }
  destruct (decide (p = q)) as [->|Hne].
  - rewrite list_lookup_insert_eq by by eapply lookup_lt_Some.
    rewrite Hq in Hp. injection Hp as <-.
    exists (set_Duration v r). by repeat split; [..|right].
  - rewrite list_lookup_insert_ne by done.
    exists r. by repeat split; [..|left].
Qed.

Lemma deref_store_Duration p v h :
  deref (store_Duration p v h) p = set_Duration v (deref h p) \/
  (h !! p = None /\ deref (store_Duration p v h) p = ResponseItem_zero).
Proof.
  unfold store_Duration, deref. destruct (h !! p) as [r|] eqn:Hp.
  - left. rewrite list_lookup_insert_eq by by eapply lookup_lt_Some. done.
  - right. by rewrite Hp.
Qed.

(** C3. A miss whose primary fetch fails, or whose fallback fetch is
    triggered and fails, makes [fetchMetadata] return an error with no
    record, leaves the cache and the stored records as they were, and
    makes either handler answer 500 "Failed to fetch metadata". *)
Theorem fetch_failure_aborts P w req lim :
  Allow (rateLimiter w) (t_start req) = (true, lim) ->
  query_url req <> "" ->
  validates env P (query_url req) = true ->
  cache_Get (cch w) (t_start req) (query_url req) = None ->
  fetch_fails env (t_start req) (query_url req) ->
  (forall now' w0,
     cache_Get (cch w0) (t_start req) (query_url req) = None ->
     exists w1,
       fetchMetadata env (query_url req) (t_start req) now' w0 = (None, w1) /\
       cch w1 = cch w0 /\ heap w1 = heap w0) /\
  exists w',
    handler env P w req
    = (JSON_error StatusInternalServerError "Failed to fetch metadata", w') /\
    cch w' = cch w /\ heap w' = heap w.
Proof.
  intros Ha Hu Hv Hc Hfail.
  assert (Hfetch : forall now' w0,
     cache_Get (cch w0) (t_start req) (query_url req) = None ->
     exists w1,
       fetchMetadata env (query_url req) (t_start req) now' w0 = (None, w1) /\
       cch w1 = cch w0 /\ heap w1 = heap w0).
  { intros now' w0 Hc0. unfold fetch_fails in Hfail.
    destruct (http_get env (t_start req) (query_url req)) as [doc|] eqn:Hg.
    - destruct Hfail as [Hs Hg2].
      rewrite <- (primary_result_Domain env _ doc) in Hg2.
      rewrite (fetchMetadata_fallback_error env _ _ _ _ _ Hc0 Hg Hs Hg2).
      eauto.
    - rewrite (fetchMetadata_primary_error env _ _ _ _ Hc0 Hg). eauto. }
  split; [exact Hfetch|].
  rewrite (handler_let_in P w req lim Ha Hu Hv).
  destruct (Hfetch (t_end req) (with_limiter lim w) Hc) as (w1 & -> & Hc1 & Hh1).
  simpl. eauto.
Qed.

(** C10. The limiter is consulted before the URL is read: a denied
    request is answered 429 whatever its URL, and every request answered
    400 (missing URL in both programs, invalid URL in the validating one)
    has been admitted and has taken its token from the bucket. *)
Theorem rate_limit_precedes_validation P w req :
  (fst (Allow (rateLimiter w) (t_start req)) = false ->
   handler env P w req = (too_many_requests, w)) /\
  (forall lim, Allow (rateLimiter w) (t_start req) = (true, lim) ->
     (query_url req = "" ->
      handler env P w req
      = (JSON_error StatusBadRequest "URL parameter is required",
         with_limiter lim w)) /\
     (query_url req <> "" -> validates env P (query_url req) = false ->
      handler env P w req
      = (JSON_error StatusBadRequest "Invalid URL", with_limiter lim w))) /\
  (forall msg w',
     handler env P w req = (JSON_error StatusBadRequest msg, w') ->
     fst (Allow (rateLimiter w) (t_start req)) = true /\
     rateLimiter w' = snd (Allow (rateLimiter w) (t_start req)) /\
     lim_tokens (rateLimiter w')
     = advance (rateLimiter w) (t_start req) - token).
Proof.
  split; [apply handler_denied|]. split.
  - intros lim Ha. split.
    + intros Hu. by rewrite handler_unfold, Ha, Hu.
    + intros Hu Hv. rewrite handler_unfold, Ha, Hv. simpl.
      by destruct (String.eqb_spec (query_url req) "").
  - intros msg w'. rewrite handler_unfold.
    destruct (Allow (rateLimiter w) (t_start req)) as [[] lim] eqn:Ha;
      simpl; [|by intros [=]].
    apply Allow_true in Ha as [-> _].
    destruct (String.eqb (query_url req) ""); [by intros [= <- <-]|].
    destruct (validates env P (query_url req)); simpl; [|by intros [= <- <-]].
    destruct (fetchMetadata _ _ _ _ _) as [[p|] w1]; simpl; by intros [=].
Qed.

(** C1, the program without the validation step.  For an admitted
    request whose URL fails [URL.ParseRequestURI] and is not cached, the
    validating handler answers 400 "Invalid URL" and touches nothing but
    the limiter, while the handler of link-to-JSON.go hands the same URL
    to [fetchMetadata]: the address is visited and the answer is never
    400 "Invalid URL". *)
Theorem standalone_handler_fetches_invalid_url w req lim :
  Allow (rateLimiter w) (t_start req) = (true, lim) ->
  query_url req <> "" ->
  URL_ParseRequestURI env (query_url req) = false ->
  cache_Get (cch w) (t_start req) (query_url req) = None ->
  handler env WithLibrary w req
  = (JSON_error StatusBadRequest "Invalid URL", with_limiter lim w) /\
  (exists l, visited (snd (handler env Standalone w req))
             = (visited w ++ query_url req :: l)%list) /\
  fst (handler env Standalone w req)
  <> JSON_error StatusBadRequest "Invalid URL".
Proof.
  intros Ha Hu Hv Hc. split.
  { rewrite handler_unfold, Ha. simpl. rewrite Hv. simpl.
    by destruct (String.eqb_spec (query_url req) ""). }
  rewrite (handler_let_in Standalone w req lim Ha Hu eq_refl).
  unfold fetchMetadata. simpl cch. rewrite Hc.
  destruct (http_get env (t_start req) (query_url req)) as [doc|].
  2:{ simpl. split; [by exists []|done]. }
  destruct (String.eqb _ "").
  - destruct (http_get env (t_start req) _) as [doc2|]; simpl.
    + split; [|done]. eexists. by rewrite <- app_assoc.
    + split; [|done]. eexists. by rewrite <- app_assoc.
  - simpl. split; [by exists []|done].
Qed.

End Handlers.

(** ** The empty domain *)

Section EmptyDomain.

Variable env : Env.

(** The icon callback keeps the first non-empty address it builds. *)
Lemma fold_cb_icon l s :
  Domain (result (fold_left (fun s e => cb_icon e s) l s)) = Domain (result s) /\
  Favicon (result (fold_left (fun s e => cb_icon e s) l s))
  = if String.eqb (Favicon (result s)) ""
    then default "" (head (List.filter nonempty
           (List.map (fun e => Domain (result s) ++ href_of e) l)))
    else Favicon (result s).
Proof.
  revert s. induction l as [|e l IH]; intros s; simpl.
  { split; [done|]. by destruct (String.eqb_spec (Favicon (result s)) ""). }
  destruct (IH (cb_icon e s)) as [IHd IHf]. rewrite IHd, IHf. clear IH IHd IHf.
  unfold cb_icon. fold (href_of e).
  destruct (String.eqb_spec (Favicon (result s)) "") as [Hf|Hf]; simpl.
  - split; [done|]. unfold nonempty at 2.
    by destruct (String.eqb_spec (Domain (result s) ++ href_of e) "").
  - split; [done|]. by destruct (String.eqb_spec (Favicon (result s)) "").
Qed.

Lemma scrape_primary_Favicon doc url domain :
  Favicon (result (scrape_primary doc (new_Scrape url domain)))
  = default "" (head (List.filter nonempty
      (List.map (fun e => domain ++ href_of e) (List.filter sel_icon doc)))).
Proof.
  unfold scrape_primary, onScraped, handleOnHTML, htmlCallbacks. simpl.
  repeat (rewrite (run_callback_preserves (fun s => Favicon (result s)));
          [| by (intros e s; by rewrite ?cb_width_result, ?cb_height_result) ]).
  unfold run_callback at 1. simpl.
  destruct (fold_cb_icon (List.filter sel_icon doc)
              (run_callback doc
                 (run_callback doc (new_Scrape url domain) (sel_title, cb_title))
                 (sel_description, cb_description))) as [_ ->].
  rewrite (run_callback_preserves (fun s => Favicon (result s)))
    by done.
  rewrite (run_callback_preserves (fun s => Favicon (result s)))
    by (intros e s; unfold cb_title; by case_match).
  rewrite (run_callback_preserves (fun s => Domain (result s)))
    by done.
  rewrite (run_callback_preserves (fun s => Domain (result s)))
    by (intros e s; unfold cb_title; by case_match).
  done.
Qed.

Lemma getBaseDomain_empty url :
  getBaseDomain env url = "" <-> URL_Parse env url = None.
Proof.
  unfold getBaseDomain. destruct (URL_Parse env url) as [[scheme host]|].
  - split; [|done]. by destruct scheme.
  - done.
Qed.

(** C4, as the code has it.  The domain is empty exactly when parsing
    fails, and [getBaseDomain] reports no error.  But [Visit] cannot
    fetch an address that does not parse: for such a URL the primary
    fetch fails, so [fetchMetadata] returns an error after visiting the
    URL alone, nothing is stored and the handler answers 500.  Whenever
    a document is obtained the domain is not empty, so neither the
    favicon nor the fallback fetch ever sees an empty domain. *)
Theorem unparsed_url_fails_at_primary_fetch P w req lim :
  visit_parses env ->
  URL_Parse env (query_url req) = None ->
  Allow (rateLimiter w) (t_start req) = (true, lim) ->
  query_url req <> "" ->
  validates env P (query_url req) = true ->
  cache_Get (cch w) (t_start req) (query_url req) = None ->
  getBaseDomain env (query_url req) = "" /\
  (forall now' w0,
     cache_Get (cch w0) (t_start req) (query_url req) = None ->
     fetchMetadata env (query_url req) (t_start req) now' w0
     = (None, log_visit (query_url req) w0)) /\
  handler env P w req
  = (JSON_error StatusInternalServerError "Failed to fetch metadata",
     log_visit (query_url req) (with_limiter lim w)) /\
  (forall url, getBaseDomain env url = "" <-> URL_Parse env url = None) /\
  (forall now url doc,
     http_get env now url = Some doc -> getBaseDomain env url <> "").
Proof.
  intros Hvisit Hp Ha Hu Hv Hc.
  assert (Hfetch : forall now' w0,
     cache_Get (cch w0) (t_start req) (query_url req) = None ->
     fetchMetadata env (query_url req) (t_start req) now' w0
     = (None, log_visit (query_url req) w0)).
  { intros now' w0 Hc0.
    apply fetchMetadata_primary_error; [done|]. by apply Hvisit. }
  split; [by apply getBaseDomain_empty|]. split; [exact Hfetch|].
  split.
  - rewrite (handler_let_in env P w req lim Ha Hu Hv).
    by rewrite (Hfetch (t_end req) (with_limiter lim w) Hc).
  - split; [apply getBaseDomain_empty|].
    intros now url doc Hg Hd. apply getBaseDomain_empty in Hd.
    by rewrite (Hvisit now url Hd) in Hg.
Qed.

End EmptyDomain.

(** ** The limiter *)

Section RateLimit.

Lemma advance_eq r b k l t :
  advance (mkLimiter r b k l) t = Z.min (k + (t - Z.min l t) * r) (b * token).
Proof.
  unfold advance. simpl. destruct (Z.ltb_spec t l).
  - by rewrite (Z.min_r l t) by lia.
  - by rewrite (Z.min_l l t) by lia.
Qed.

Lemma Allow_grant k l t k' :
  k' = Z.min (k + (t - Z.min l t)) (3 * token) - token ->
  0 <= k' ->
  Allow (mkLimiter 1 3 k l) t = (true, mkLimiter 1 3 k' t).
Proof.
  intros -> Hk. unfold Allow. rewrite advance_eq, Z.mul_1_r. simpl.
  by destruct (Z.leb_spec 0 (Z.min (k + (t - Z.min l t)) (3 * token) - token));
    [|lia].
Qed.





Variable env : Env.

(** What a handler does to the limiter, and when it answers 429. *)
Lemma handler_limiter P w req :
  is_too_many_requests (fst (handler env P w req))
  = negb (fst (Allow (rateLimiter w) (t_start req))) /\
  rateLimiter (snd (handler env P w req))
  = snd (Allow (rateLimiter w) (t_start req)).
Proof.
  rewrite handler_unfold.
  destruct (Allow (rateLimiter w) (t_start req)) as [[] lim] eqn:Ha; simpl.
  - destruct (String.eqb (query_url req) ""); [done|].
    destruct (validates env P (query_url req)); [|done]. simpl.
    destruct (fetchMetadata env _ _ _ _) as [o w1] eqn:Hf.
    apply fetchMetadata_frame in Hf as (Hl & _ & _).
    by destruct o.
  - by rewrite (Allow_false _ _ _ Ha).
Qed.

Lemma serve_limiter P w reqs :
  List.map is_too_many_requests (fst (serve (handler env P) w reqs))
  = List.map negb (fst (allows (rateLimiter w) (List.map t_start reqs))).
Proof.
  revert w. induction reqs as [|req reqs IH]; intros w; [done|].
  cbn [serve allows List.map].
  destruct (handler_limiter P w req) as [H429 Hlim].
  destruct (handler env P w req) as [resp w1].
  destruct (Allow (rateLimiter w) (t_start req)) as [ok lim1].
  simpl in H429, Hlim. subst lim1.
  specialize (IH w1).
  destruct (serve (handler env P) w1 reqs) as [resps w2].
  destruct (allows (rateLimiter w1) (List.map t_start reqs)) as [oks lim2].
  simpl in *. by rewrite H429, IH.
Qed.



End RateLimit.

(** ** The cache and the records it shares with the handler *)

Section SharedRecords.

Variable env : Env.

(** The fetcher writes the cache only on a miss, and then only at [url]. *)
Lemma fetchMetadata_cch url now now' w o w' :
  fetchMetadata env url now now' w = (o, w') ->
  cch w' = cch w \/
  (cache_Get (cch w) now url = None /\
   exists p, cch w' = cache_Set (cch w) now' url p).
Proof.
  unfold fetchMetadata. intros Hf.
  destruct (cache_Get (cch w) now url) as [q|]; [by injection Hf as <- <-; left|].
  destruct (http_get env now url) as [doc|]; [|by injection Hf as <- <-; left].
  destruct (String.eqb _ "").
  - destruct (http_get env now _) as [doc2|]; [|by injection Hf as <- <-; left].
    unfold cache_result in Hf. injection Hf as <- <-. right. eauto.
  - unfold cache_result in Hf. injection Hf as <- <-. right. eauto.
Qed.

Lemma cache_Get_live c now k it :
  c !! k = Some it -> expired it now = false ->
  cache_Get c now k = Some (Object it).
Proof. intros Hk He. unfold cache_Get. by rewrite Hk, He. Qed.

Lemma cache_Get_Some c now k p :
  cache_Get c now k = Some p ->
  exists e, c !! k = Some (mkItem p e) /\ expired (mkItem p e) now = false.
Proof.
  unfold cache_Get. destruct (c !! k) as [[q e]|]; [|done].
  destruct (expired (mkItem q e) now) eqn:He; [done|].
  intros [= <-]. eauto.
Qed.

(** The janitor removes only entries that no later lookup would return:
    lookups do not depend on when the sweep runs. *)
Lemma cache_Get_DeleteExpired c now now' k :
  now <= now' ->
  cache_Get (cache_DeleteExpired c now) now' k = cache_Get c now' k.
Proof.
  intros Hle. unfold cache_Get, cache_DeleteExpired.
  destruct (c !! k) as [it|] eqn:Hk.
  - destruct (expired it now) eqn:He.
    + replace (filter _ c !! k) with (@None Item).
      2:{ symmetry. apply map_lookup_filter_None. right.
          intros it' Hk'. simpl. rewrite Hk in Hk'. injection Hk' as <-.
          by rewrite He. }
      unfold expired in *. apply andb_prop in He as [H0 H1].
      rewrite H0. simpl. apply Z.ltb_lt in H1.
      by destruct (Z.ltb_spec (Expiration it) now'); [|lia].
    + replace (filter _ c !! k) with (Some it); [done|].
      symmetry. by apply map_lookup_filter_Some.
  - replace (filter _ c !! k) with (@None Item); [done|].
    symmetry. apply map_lookup_filter_None. by left.
Qed.

(** Serving a request keeps every field other than the duration of
    every stored record, and keeps every live cache entry. *)
Lemma handler_keeps_fields P w req resp w' :
  handler env P w req = (resp, w') ->
  (forall p r, heap w !! p = Some r ->
     exists r', heap w' !! p = Some r' /\
       same_but_Duration r r' /\
       (r' = r \/
        (r' = set_Duration (elapsed_ms req) r /\
         resp = JSON_metadata StatusOK r'))) /\
  (forall k it, cch w !! k = Some it -> expired it (t_start req) = false ->
     cch w' !! k = Some it).
Proof.
  rewrite handler_unfold.
  destruct (Allow (rateLimiter w) (t_start req)) as [[] lim]; simpl.
  2:{ intros [= <- <-]. split; [|done]. intros p r Hp. exists r.
      by repeat split; [..|left]. }
  destruct (String.eqb (query_url req) "").
  { intros [= <- <-]. split; [|done]. intros p r Hp. exists r.
    by repeat split; [..|left]. }
  destruct (validates env P (query_url req)); simpl.
  2:{ intros [= <- <-]. split; [|done]. intros p r Hp. exists r.
      by repeat split; [..|left]. }
  destruct (fetchMetadata env _ _ _ _) as [o w1] eqn:Hf.
  pose proof (fetchMetadata_frame env _ _ _ _ _ _ Hf) as (_ & [l Hh] & _).
  pose proof (fetchMetadata_cch _ _ _ _ _ _ Hf) as Hcch.
  simpl in Hh, Hcch.
  assert (Hlive : forall k it, cch w !! k = Some it ->
            expired it (t_start req) = false -> cch w1 !! k = Some it).
  { intros k it Hk He. destruct Hcch as [->|[Hmiss [p ->]]]; [done|].
    unfold cache_Set. destruct (decide (query_url req = k)) as [<-|Hne].
    - by rewrite (cache_Get_live _ _ _ _ Hk He) in Hmiss.
    - by rewrite lookup_insert_ne. }
  destruct o as [q|]; simpl; intros [= <- <-].
  - split; [|exact Hlive]. intros p r Hp. simpl.
    assert (Hp1 : heap w1 !! p = Some r).
    { rewrite Hh. by apply lookup_app_l_Some. }
    destruct (store_Duration_lookup q (elapsed_ms req) _ _ _ Hp1)
      as (r' & Hr' & Hsame & Hcase).
    exists r'. split; [done|]. split; [done|].
    destruct Hcase as [->|[-> ->]]; [by left|right].
    split; [done|]. unfold deref. by rewrite Hr'.
  - split; [|exact Hlive]. intros p r Hp. exists r.
    split; [rewrite Hh; by apply lookup_app_l_Some|].
    by split; [|left].
Qed.

(** The answer made of a record that has just been stored. *)
Lemma respond_cache_result req url now s w0 :
  exists w1,
    respond req (cache_result url now s w0)
    = (JSON_metadata StatusOK (set_Duration (elapsed_ms req) (result s)), w1) /\
    cch w1 = cache_Set (cch w0) now url (length (heap w0)) /\
    deref (heap w1) (length (heap w0))
    = set_Duration (elapsed_ms req) (result s) /\
    visited w1 = visited w0.
Proof.
  unfold cache_result, respond. cbn [heap with_cch with_heap cch visited].
  assert (Hd : deref (store_Duration (length (heap w0)) (elapsed_ms req)
                        (heap w0 ++ [result s])%list) (length (heap w0))
               = set_Duration (elapsed_ms req) (result s)).
  { unfold store_Duration, deref. rewrite list_lookup_middle by done.
    rewrite list_lookup_insert_eq; [done|].
    rewrite length_app. simpl. lia. }
  rewrite Hd. eauto.
Qed.

(** A 200 answer comes from a record the cache maps the URL to. *)
Lemma handler_ok_inv P w req c r w1 :
  handler env P w req = (JSON_metadata c r, w1) ->
  c = StatusOK /\ query_url req <> "" /\
  validates env P (query_url req) = true /\
  exists p e,
    cch w1 !! query_url req = Some (mkItem p e) /\
    deref (heap w1) p = r /\
    (cache_Get (cch w) (t_start req) (query_url req) = None ->
     e = t_end req + defaultExpiration).
Proof.
  rewrite handler_unfold.
  destruct (Allow (rateLimiter w) (t_start req)) as [[] lim]; simpl; [|done].
  destruct (String.eqb_spec (query_url req) "") as [|Hu]; [done|].
  destruct (validates env P (query_url req)); simpl; [|done].
  unfold fetchMetadata. simpl cch.
  destruct (cache_Get (cch w) (t_start req) (query_url req)) as [p|] eqn:Hc.
  { simpl. intros [= <- <- <-].
    apply cache_Get_Some in Hc as (e & Hk & _).
    repeat split; try done. by exists p, e. }
  assert (Hstore : forall s w0,
    respond req (cache_result (query_url req) (t_end req) s w0)
      = (JSON_metadata c r, w1) ->
    c = StatusOK /\ query_url req <> "" /\ true = true /\
    exists p e,
      cch w1 !! query_url req = Some (mkItem p e) /\
      deref (heap w1) p = r /\
      (@None loc = None -> e = t_end req + defaultExpiration)).
  { intros s w0 Hr.
    destruct (respond_cache_result req (query_url req) (t_end req) s w0)
      as (w2 & Hr2 & Hc2 & Hd2 & _).
    rewrite Hr2 in Hr. injection Hr as <- <- <-.
    repeat split; try done.
    exists (length (heap w0)), (t_end req + defaultExpiration).
    rewrite Hc2. unfold cache_Set. by rewrite lookup_insert_eq. }
  destruct (http_get env (t_start req) (query_url req)) as [doc|]; [|done].
  destruct (String.eqb _ ""); [|by apply Hstore].
  destruct (http_get env (t_start req) _) as [doc2|]; [|done].
  by apply Hstore.
Qed.

(** C5. After an answer 200 for a URL, a second admitted request for the
    same URL that finds it in the cache (which it does up to 30 minutes
    after the record was stored) is answered from the stored record: no
    address is visited, the cache is unchanged, and the record returned
    equals the first one in every field but the duration. *)
Theorem cache_hit_repeats_first_response P w req1 req2 c r1 w1 :
  handler env P w req1 = (JSON_metadata c r1, w1) ->
  query_url req2 = query_url req1 ->
  fst (Allow (rateLimiter w1) (t_start req2)) = true ->
  (cache_Get (cch w) (t_start req1) (query_url req1) = None ->
   t_start req2 <= t_end req1 + defaultExpiration ->
   is_Some (cache_Get (cch w1) (t_start req2) (query_url req2))) /\
  (is_Some (cache_Get (cch w1) (t_start req2) (query_url req2)) ->
   exists r2 w2,
     handler env P w1 req2 = (JSON_metadata StatusOK r2, w2) /\
     same_but_Duration r1 r2 /\
     visited w2 = visited w1 /\
     cch w2 = cch w1).
Proof.
  intros H1 Hurl Ha.
  destruct (handler_ok_inv _ _ _ _ _ _ H1)
    as (_ & Hu & Hv & p & e & Hk & Hd & He).
  split.
  - intros Hmiss Httl. rewrite Hurl. unfold cache_Get. rewrite Hk.
    rewrite (He Hmiss). unfold expired. simpl.
    destruct (Z.ltb_spec (t_end req1 + defaultExpiration) (t_start req2));
      [lia|]. rewrite andb_false_r. by eexists.
  - intros [p' Hhit].
    destruct (Allow (rateLimiter w1) (t_start req2)) as [ok lim] eqn:Hallow.
    simpl in Ha. subst ok.
    rewrite <- Hurl in Hu, Hv.
    rewrite (handler_let_in env P w1 req2 lim Hallow Hu Hv).
    assert (p' = p) as ->.
    { apply cache_Get_Some in Hhit as (e' & Hk' & _).
      rewrite Hurl, Hk in Hk'. by injection Hk' as ->. }
    rewrite (fetchMetadata_hit env _ _ _ (with_limiter lim w1) p) by done.
    unfold respond. eexists _, _. split; [done|].
    cbn [visited with_heap with_limiter cch heap].
    split; [|done].
    destruct (deref_store_Duration p (elapsed_ms req2) (heap w1))
      as [->|[Hnone ->]].
    + by rewrite Hd.
    + rewrite <- Hd. unfold deref. by rewrite Hnone.
Qed.

End SharedRecords.

(** ** The claims on concrete requests *)

Lemma description_last_match_wins_witness :
  let w' := snd (fetchMetadata example_env page_url 0 5 initial_World) in
  cache_Get (cch initial_World) 0 page_url = None /\
  http_get example_env 0 page_url = Some page_doc /\
  fetchMetadata example_env page_url 0 5 initial_World = (Some 0%nat, w') /\
  Description (deref (heap w') 0%nat) = "second".
Proof.
  intros w'.
  assert (Hf : fetchMetadata example_env page_url 0 5 initial_World
               = (Some 0%nat, w')) by (vm_compute; reflexivity).
  exact (conj eq_refl (conj eq_refl (conj Hf
           (proj1 (description_last_match_wins example_env page_url 0 5
                     initial_World page_doc 0%nat w' eq_refl eq_refl Hf))))).
Defined.

Lemma one_image_descriptor_per_fetch_witness :
  let w' := snd (fetchMetadata example_env page_url 0 5 initial_World) in
  cache_Get (cch initial_World) 0 page_url = None /\
  http_get example_env 0 page_url = Some page_doc /\
  fetchMetadata example_env page_url 0 5 initial_World = (Some 0%nat, w') /\
  length (Images (deref (heap w') 0%nat)) = 1%nat.
Proof.
  intros w'.
  assert (Hf : fetchMetadata example_env page_url 0 5 initial_World
               = (Some 0%nat, w')) by (vm_compute; reflexivity).
  exact (conj eq_refl (conj eq_refl (conj Hf
           (proj2 (proj2 (one_image_descriptor_per_fetch example_env page_url
                     0 5 initial_World page_doc 0%nat w' eq_refl eq_refl
                     Hf)))))).
Defined.

Lemma fallback_fetch_iff_sitename_empty_witness :
  cache_Get (cch initial_World) 0 page_url = None /\
  http_get example_env 0 page_url = Some page_doc /\
  Sitename (result (primary_result example_env page_url page_doc)) = "" /\
  visited (snd (fetchMetadata example_env page_url 0 5 initial_World))
  = [page_url; "http://example.com"].
Proof.
  exact (conj eq_refl (conj eq_refl (conj eq_refl
           (proj1 (proj2 (fallback_fetch_iff_sitename_empty example_env
                            page_url 0 5 initial_World page_doc
                            eq_refl eq_refl) eq_refl))))).
Defined.

Lemma fetch_failure_aborts_witness :
  Allow (rateLimiter initial_World) (t_start missing_request)
  = (true, mkLimiter 1 3 (2 * token) 0) /\
  query_url missing_request <> "" /\
  validates example_env WithLibrary (query_url missing_request) = true /\
  cache_Get (cch initial_World) (t_start missing_request)
    (query_url missing_request) = None /\
  fetch_fails example_env (t_start missing_request) (query_url missing_request) /\
  exists w',
    handler example_env WithLibrary initial_World missing_request
    = (JSON_error StatusInternalServerError "Failed to fetch metadata", w') /\
    cch w' = cch initial_World /\ heap w' = heap initial_World.
Proof.
  assert (Hu : query_url missing_request <> "") by (vm_compute; discriminate).
  assert (Hfail : fetch_fails example_env (t_start missing_request)
                    (query_url missing_request)) by (vm_compute; exact I).
  exact (conj eq_refl (conj Hu (conj eq_refl (conj eq_refl (conj Hfail
           (proj2 (fetch_failure_aborts example_env WithLibrary initial_World
                     missing_request (mkLimiter 1 3 (2 * token) 0)
                     eq_refl Hu eq_refl eq_refl Hfail))))))).
Defined.

Lemma rate_limit_precedes_validation_witness :
  Allow (rateLimiter initial_World) (t_start invalid_request)
  = (true, mkLimiter 1 3 (2 * token) 0) /\
  query_url invalid_request <> "" /\
  validates example_env WithLibrary (query_url invalid_request) = false /\
  handler example_env WithLibrary initial_World invalid_request
  = (JSON_error StatusBadRequest "Invalid URL",
     with_limiter (mkLimiter 1 3 (2 * token) 0) initial_World).
Proof.
  assert (Hu : query_url invalid_request <> "") by (vm_compute; discriminate).
  exact (conj eq_refl (conj Hu (conj eq_refl
           (proj2 (proj1 (proj2 (rate_limit_precedes_validation example_env
                     WithLibrary initial_World invalid_request))
                     (mkLimiter 1 3 (2 * token) 0) eq_refl) Hu eq_refl)))).
Defined.

Lemma standalone_handler_fetches_invalid_url_witness :
  Allow (rateLimiter initial_World) (t_start invalid_request)
  = (true, mkLimiter 1 3 (2 * token) 0) /\
  query_url invalid_request <> "" /\
  URL_ParseRequestURI example_env (query_url invalid_request) = false /\
  cache_Get (cch initial_World) (t_start invalid_request)
    (query_url invalid_request) = None /\
  fst (handler example_env Standalone initial_World invalid_request)
  <> JSON_error StatusBadRequest "Invalid URL".
Proof.
  assert (Hu : query_url invalid_request <> "") by (vm_compute; discriminate).
  exact (conj eq_refl (conj Hu (conj eq_refl (conj eq_refl
           (proj2 (proj2 (standalone_handler_fetches_invalid_url example_env
                     initial_World invalid_request
                     (mkLimiter 1 3 (2 * token) 0)
                     eq_refl Hu eq_refl eq_refl))))))).
Defined.

(** The request [url=not-a-url] on the program without validation: the
    address is visited and the answer is 500. *)
Lemma invalid_url_is_fetched :
  URL_ParseRequestURI example_env "not-a-url" = false /\
  fst (extract example_env initial_World invalid_request)
  = JSON_error StatusInternalServerError "Failed to fetch metadata" /\
  visited (snd (extract example_env initial_World invalid_request))
  = ["not-a-url"].
Proof. vm_compute. done. Qed.

(** The small web serves no address that does not parse. *)
Lemma example_env_visit_parses : visit_parses example_env.
Proof.
  intros t u Hp. simpl in *. unfold example_get.
  destruct (String.eqb_spec u "http://example.com/page") as [->|_]; [done|].
  destruct (String.eqb_spec u "http://example.com/named") as [->|_]; [done|].
  by destruct (String.eqb_spec u "http://example.com") as [->|_].
Qed.

(** A URL that does not parse: the domain is empty and the operation
    fails outright, at the primary fetch; the handler answers 500. *)
Lemma unparsed_url_fails_outright :
  URL_Parse example_env unparsed_url = None /\
  getBaseDomain example_env unparsed_url = "" /\
  cache_Get (cch initial_World) 0 unparsed_url = None /\
  fst (fetchMetadata example_env unparsed_url 0 millisecond initial_World)
  = None /\
  visited (snd (fetchMetadata example_env unparsed_url 0 millisecond
                  initial_World))
  = [unparsed_url] /\
  fst (extract example_env initial_World unparsed_request)
  = JSON_error StatusInternalServerError "Failed to fetch metadata".
Proof. vm_compute. done. Qed.

Lemma unparsed_url_fails_at_primary_fetch_witness :
  visit_parses example_env /\
  URL_Parse example_env (query_url unparsed_request) = None /\
  Allow (rateLimiter initial_World) (t_start unparsed_request)
  = (true, mkLimiter 1 3 (2 * token) 0) /\
  query_url unparsed_request <> "" /\
  validates example_env Standalone (query_url unparsed_request) = true /\
  cache_Get (cch initial_World) (t_start unparsed_request)
    (query_url unparsed_request) = None /\
  handler example_env Standalone initial_World unparsed_request
  = (JSON_error StatusInternalServerError "Failed to fetch metadata",
     log_visit (query_url unparsed_request)
       (with_limiter (mkLimiter 1 3 (2 * token) 0) initial_World)).
Proof.
  assert (Hu : query_url unparsed_request <> "") by (vm_compute; discriminate).
  exact (conj example_env_visit_parses (conj eq_refl (conj eq_refl (conj Hu
           (conj eq_refl (conj eq_refl
              (proj1 (proj2 (proj2 (unparsed_url_fails_at_primary_fetch
                        example_env Standalone initial_World unparsed_request
                        (mkLimiter 1 3 (2 * token) 0)
                        example_env_visit_parses eq_refl eq_refl Hu eq_refl
                        eq_refl)))))))))).
Defined.


(** Two nanoseconds before the second is over the library denies, and
    agrees with the exact bucket on the whole sequence. *)
Lemma allows64_two_nanoseconds_short :
  fst (allows64 (NewLimiter64 1 3) [0; 0; 0; 999999998; second; second])
  = fst (allows (NewLimiter 1 3) [0; 0; 0; 999999998; second; second]) /\
  fst (allows (NewLimiter 1 3) [0; 0; 0; 999999998; second; second])
  = [true; true; true; false; true; false].
Proof. vm_compute. done. Qed.


(** The record the cache holds for the page is written by the handler:
    its duration is 5 after the first answer and 7 after the second,
    which was served from the cache. *)
Lemma stored_duration_overwritten_by_hit :
  let w1 := snd (extract example_env initial_World first_request) in
  let w2 := snd (extract example_env w1 second_request) in
  cache_Get (cch w1) (t_start second_request) page_url = Some 0%nat /\
  cache_Get (cch w2) (t_start second_request) page_url = Some 0%nat /\
  visited w2 = visited w1 /\
  Duration (deref (heap w1) 0%nat) = 5 /\
  Duration (deref (heap w2) 0%nat) = 7 /\
  deref (heap w2) 0%nat <> deref (heap w1) 0%nat.
Proof. vm_compute. repeat split; discriminate. Qed.

Lemma cache_hit_repeats_first_response_witness :
  let out1 := handler example_env WithLibrary initial_World first_request in
  let w1 := snd out1 in
  out1 = (JSON_metadata StatusOK (deref (heap w1) 0%nat), w1) /\
  query_url second_request = query_url first_request /\
  fst (Allow (rateLimiter w1) (t_start second_request)) = true /\
  t_start second_request <= t_end first_request + defaultExpiration /\
  exists r2 w2,
    handler example_env WithLibrary w1 second_request
    = (JSON_metadata StatusOK r2, w2) /\
    same_but_Duration (deref (heap w1) 0%nat) r2 /\
    visited w2 = visited w1 /\ cch w2 = cch w1.
Proof.
  intros out1 w1.
  assert (H1 : out1 = (JSON_metadata StatusOK (deref (heap w1) 0%nat), w1))
    by (vm_compute; reflexivity).
  assert (Ha : fst (Allow (rateLimiter w1) (t_start second_request)) = true)
    by (vm_compute; reflexivity).
  assert (Httl : t_start second_request
                 <= t_end first_request + defaultExpiration)
    by (vm_compute; discriminate).
  destruct (cache_hit_repeats_first_response example_env WithLibrary
              initial_World first_request second_request StatusOK
              (deref (heap w1) 0%nat) w1 H1 eq_refl Ha) as [Hlive Hhit].
  exact (conj H1 (conj eq_refl (conj Ha (conj Httl
           (Hhit (Hlive eq_refl Httl)))))).
Defined.

(** * Further properties of the code *)

(** ** The fields of a fetched record *)

Ltac cb_unfold :=
  unfold cb_title, cb_description, cb_icon, cb_site_name, cb_image,
    cb_image_alt, cb_image_type, cb_image_width, cb_image_height.

Ltac cb_frame := intros ? ?; cb_unfold; repeat case_match; reflexivity.

Ltac skip_callbacks f :=
  repeat (rewrite (run_callback_preserves f); [| cb_frame ]).

Section RecordFields.

Variable env : Env.

(** A callback that writes only what [Atoi] accepts: the last accepted
    content decides. *)
Lemma run_callback_parsed (f : Scrape -> Z) sel (cb : Callback) doc s :
  (forall e s, f (cb e s) = default (f s) (Atoi (content_of e))) ->
  f (run_callback doc s (sel, cb))
  = default (f s) (last (omap (fun e => Atoi (content_of e)) (List.filter sel doc))).
Proof.
  intros Hcb. unfold run_callback. simpl.
  generalize (List.filter sel doc). intros l.
  induction l as [|e l IH] using rev_ind; [done|].
  rewrite fold_left_app, omap_app. simpl. rewrite Hcb, IH.
  destruct (Atoi (content_of e)) as [n|]; simpl.
  - by rewrite last_snoc.
  - by rewrite app_nil_r.
Qed.

(** The title callback keeps the first non-empty text. *)
Lemma fold_cb_title l s :
  Title (result (fold_left (fun s e => cb_title e s) l s))
  = if String.eqb (Title (result s)) ""
    then first_nonempty (List.map Text l)
    else Title (result s).
Proof.
  revert s. induction l as [|e l IH]; intros s; simpl.
  { by destruct (String.eqb_spec (Title (result s)) ""). }
  rewrite IH. clear IH. unfold cb_title, first_nonempty.
  destruct (String.eqb_spec (Title (result s)) "") as [Ht|Ht]; simpl.
  - unfold nonempty at 2. by destruct (String.eqb_spec (Text e) "").
  - by destruct (String.eqb_spec (Title (result s)) "").
Qed.

Lemma scrape_primary_Title doc url domain :
  Title (result (scrape_primary doc (new_Scrape url domain)))
  = first_nonempty (List.map Text (List.filter sel_title doc)).
Proof.
  unfold scrape_primary, onScraped, handleOnHTML, htmlCallbacks. simpl.
  skip_callbacks (fun s => Title (result s)).
  unfold run_callback. simpl. by rewrite fold_cb_title.
Qed.

Lemma scrape_primary_Sitename doc url domain :
  Sitename (result (scrape_primary doc (new_Scrape url domain)))
  = last_content (sel_og "og:site_name") doc.
Proof.
  unfold scrape_primary, onScraped, handleOnHTML, htmlCallbacks. simpl.
  skip_callbacks (fun s => Sitename (result s)).
  rewrite (run_callback_overwrite (fun s => Sitename (result s)) content_of)
    by done.
  skip_callbacks (fun s => Sitename (result s)).
  done.
Qed.

Lemma scrape_primary_URL doc url domain :
  URL (result (scrape_primary doc (new_Scrape url domain))) = url.
Proof.
  unfold scrape_primary, onScraped, handleOnHTML, htmlCallbacks. simpl.
  skip_callbacks (fun s => URL (result s)).
  done.
Qed.

(** The image under construction when the document ends. *)
Lemma handleOnHTML_webImage doc url domain :
  webImage (handleOnHTML htmlCallbacks doc (new_Scrape url domain))
  = mkWebImage (last_content (sel_og "og:image") doc)
               (last_content (sel_og "og:image:alt") doc)
               (last_content (sel_og "og:image:type") doc)
               (last_int (sel_og "og:image:width") doc)
               (last_int (sel_og "og:image:height") doc).
Proof.
  set (s := handleOnHTML htmlCallbacks doc (new_Scrape url domain)).
  assert (H1 : wi_URL (webImage s) = last_content (sel_og "og:image") doc).
  { subst s. unfold handleOnHTML, htmlCallbacks. simpl.
    skip_callbacks (fun s => wi_URL (webImage s)).
    rewrite (run_callback_overwrite (fun s => wi_URL (webImage s)) content_of)
      by done.
    skip_callbacks (fun s => wi_URL (webImage s)). done. }
  assert (H2 : wi_Alt (webImage s) = last_content (sel_og "og:image:alt") doc).
  { subst s. unfold handleOnHTML, htmlCallbacks. simpl.
    skip_callbacks (fun s => wi_Alt (webImage s)).
    rewrite (run_callback_overwrite (fun s => wi_Alt (webImage s)) content_of)
      by done.
    skip_callbacks (fun s => wi_Alt (webImage s)). done. }
  assert (H3 : wi_Type (webImage s) = last_content (sel_og "og:image:type") doc).
  { subst s. unfold handleOnHTML, htmlCallbacks. simpl.
    skip_callbacks (fun s => wi_Type (webImage s)).
    rewrite (run_callback_overwrite (fun s => wi_Type (webImage s)) content_of)
      by done.
    skip_callbacks (fun s => wi_Type (webImage s)). done. }
  assert (H4 : wi_Width (webImage s) = last_int (sel_og "og:image:width") doc).
  { subst s. unfold handleOnHTML, htmlCallbacks. simpl.
    skip_callbacks (fun s => wi_Width (webImage s)).
    rewrite (run_callback_parsed (fun s => wi_Width (webImage s))).
    2:{ intros e s. unfold cb_image_width. fold (content_of e).
        by destruct (Atoi (content_of e)). }
    skip_callbacks (fun s => wi_Width (webImage s)). done. }
  assert (H5 : wi_Height (webImage s) = last_int (sel_og "og:image:height") doc).
  { subst s. unfold handleOnHTML, htmlCallbacks. simpl.
    rewrite (run_callback_parsed (fun s => wi_Height (webImage s))).
    2:{ intros e s. unfold cb_image_height. fold (content_of e).
        by destruct (Atoi (content_of e)). }
    skip_callbacks (fun s => wi_Height (webImage s)). done. }
  destruct (webImage s). simpl in *. by subst.
Qed.

End RecordFields.

Section FetchedFields.

Variable env : Env.

(** X1. The title of a freshly fetched record is the text of the first
    [title] element whose text is not empty, in document order; it is
    empty when there is none. *)
Theorem title_first_nonempty_wins url now now' w doc p w' :
  cache_Get (cch w) now url = None ->
  http_get env now url = Some doc ->
  fetchMetadata env url now now' w = (Some p, w') ->
  Title (deref (heap w') p)
  = first_nonempty (List.map Text (List.filter sel_title doc)).
Proof.
  intros Hc Hg Hf.
  destruct (fetchMetadata_miss_inv env _ _ _ _ _ _ _ Hc Hg Hf)
    as (name & -> & Hh & _ & _).
  rewrite Hh, deref_alloc. cbn [Title set_Sitename].
  apply scrape_primary_Title.
Qed.

Lemma nonempty_app_l a b : a <> "" -> nonempty (a ++ b) = true.
Proof. intros Ha. destruct a; [done|]. reflexivity. Qed.

(** X2. When the URL parses, the favicon of a freshly fetched record is
    the href of the first icon link of the document (any of the four rel
    values) with the domain written in front of it, whatever the href
    is; it is empty when the document has no icon link. *)
Theorem favicon_first_icon_prefixed url now now' w doc p w' :
  URL_Parse env url <> None ->
  cache_Get (cch w) now url = None ->
  http_get env now url = Some doc ->
  fetchMetadata env url now now' w = (Some p, w') ->
  Favicon (deref (heap w') p)
  = match head (List.filter sel_icon doc) with
    | Some e => getBaseDomain env url ++ href_of e
    | None => ""
    end.
Proof.
  intros Hp Hc Hg Hf.
  destruct (fetchMetadata_miss_inv env _ _ _ _ _ _ _ Hc Hg Hf)
    as (name & -> & Hh & _ & _).
  rewrite Hh, deref_alloc. cbn [Favicon set_Sitename].
  unfold primary_result. rewrite scrape_primary_Favicon.
  assert (Hd : getBaseDomain env url <> "").
  { intros Hd. by apply getBaseDomain_empty in Hd. }
  destruct (List.filter sel_icon doc) as [|e l]; [done|].
  simpl. by rewrite (nonempty_app_l _ _ Hd).
Qed.

(** X3. The site name of a freshly fetched record is the content of the
    last og:site_name tag of the page when that is not empty; otherwise
    it is the content of the last og:title tag of the document fetched
    from the domain, empty when there is none. *)
Theorem sitename_from_page_or_root url now now' w doc p w' :
  cache_Get (cch w) now url = None ->
  http_get env now url = Some doc ->
  fetchMetadata env url now now' w = (Some p, w') ->
  let name := last_content (sel_og "og:site_name") doc in
  (name <> "" -> Sitename (deref (heap w') p) = name) /\
  (name = "" ->
   exists doc2, http_get env now (getBaseDomain env url) = Some doc2 /\
     Sitename (deref (heap w') p) = last_content (sel_og "og:title") doc2).
Proof.
  intros Hc Hg Hf name.
  assert (Hname : Sitename (result (primary_result env url doc)) = name)
    by apply scrape_primary_Sitename.
  pose proof (primary_result_Domain env url doc) as Hd.
  split; intros Hn.
  - rewrite <- Hname in Hn.
    rewrite (fetchMetadata_named env _ _ _ _ _ Hc Hg Hn) in Hf.
    unfold cache_result in Hf. injection Hf as <- <-.
    cbn [heap with_cch with_heap]. by rewrite deref_alloc.
  - rewrite <- Hname in Hn.
    destruct (http_get env now (getBaseDomain env url)) as [doc2|] eqn:Hg2;
      rewrite <- Hd in Hg2.
    + exists doc2. split; [done|].
      rewrite (fetchMetadata_fallback env _ _ _ _ _ _ Hc Hg Hn Hg2) in Hf.
      unfold cache_result in Hf. injection Hf as <- <-.
      cbn [heap with_cch with_heap]. rewrite deref_alloc.
      rewrite scrape_fallback_spec. cbn [result on_result Sitename set_Sitename].
      by rewrite Hn.
    + by rewrite (fetchMetadata_fallback_error env _ _ _ _ _ Hc Hg Hn Hg2) in Hf.
Qed.

(** X4. The one image descriptor of a freshly fetched record is put
    together field by field: url, alt and type are the contents of the
    last og:image, og:image:alt and og:image:type tags (so several
    og:image tags leave only the last), width and height are the last
    contents that parse as integers, and a field with no such tag keeps
    its zero value. *)
Theorem image_descriptor_fields url now now' w doc p w' :
  cache_Get (cch w) now url = None ->
  http_get env now url = Some doc ->
  fetchMetadata env url now now' w = (Some p, w') ->
  Images (deref (heap w') p)
  = [ mkWebImage (last_content (sel_og "og:image") doc)
                 (last_content (sel_og "og:image:alt") doc)
                 (last_content (sel_og "og:image:type") doc)
                 (last_int (sel_og "og:image:width") doc)
                 (last_int (sel_og "og:image:height") doc) ].
Proof.
  intros Hc Hg Hf.
  destruct (fetchMetadata_miss_inv env _ _ _ _ _ _ _ Hc Hg Hf)
    as (name & -> & Hh & _ & _).
  rewrite Hh, deref_alloc. cbn [Images set_Sitename].
  unfold primary_result. rewrite scrape_primary_Images.
  by rewrite handleOnHTML_webImage.
Qed.

End FetchedFields.

(** ** Requests, answers and the shared state *)

Section Serving.

Variable env : Env.

Lemma primary_result_fresh url doc :
  let r := result (primary_result env url doc) in
  URL r = url /\ Domain r = getBaseDomain env url /\
  length (Images r) = 1%nat /\ Duration r = 0.
Proof.
  cbv zeta. unfold primary_result. split; [|split; [|split]].
  - apply scrape_primary_URL.
  - apply primary_result_Domain.
  - by rewrite scrape_primary_Images.
  - unfold scrape_primary, onScraped, handleOnHTML, htmlCallbacks. simpl.
    skip_callbacks (fun s => Duration (result s)). done.
Qed.

(** The two outcomes of a miss. *)
Lemma fetchMetadata_miss_spec url now now' w :
  cache_Get (cch w) now url = None ->
  let out := fetchMetadata env url now now' w in
  rateLimiter (snd out) = rateLimiter w /\
  (visited (snd out) = (visited w ++ [url])%list \/
   visited (snd out) = (visited w ++ [url; getBaseDomain env url])%list) /\
  ((fetch_fails env now url /\ fst out = None /\
    cch (snd out) = cch w /\ heap (snd out) = heap w) \/
   (~ fetch_fails env now url /\
    exists r, fst out = Some (length (heap w)) /\
      heap (snd out) = (heap w ++ [r])%list /\
      cch (snd out) = cache_Set (cch w) now' url (length (heap w)) /\
      URL r = url /\ Domain r = getBaseDomain env url /\
      length (Images r) = 1%nat /\ Duration r = 0)).
Proof.
  intros Hc out. subst out. unfold fetch_fails.
  destruct (http_get env now url) as [doc|] eqn:Hg.
  2:{ rewrite (fetchMetadata_primary_error env _ _ _ _ Hc Hg).
      cbn [fst snd]. split; [done|]. split; [by left|]. by left. }
  pose proof (primary_result_Domain env url doc) as Hd.
  destruct (primary_result_fresh url doc) as (Hu & _ & Hi & Hdur).
  destruct (String.eqb_spec (Sitename (result (primary_result env url doc))) "")
    as [Hs|Hs].
  - destruct (http_get env now (getBaseDomain env url)) as [doc2|] eqn:Hg2.
    + rewrite <- Hd in Hg2.
      rewrite (fetchMetadata_fallback env _ _ _ _ _ _ Hc Hg Hs Hg2).
      unfold cache_result.
      cbn [fst snd rateLimiter visited heap cch with_cch with_heap log_visit].
      rewrite Hd, <- app_assoc. split; [done|]. split; [by right|]. right.
      split; [by intros [_ [=]]|].
      eexists. split; [done|]. split; [done|]. split; [done|].
      rewrite scrape_fallback_spec. cbn [result on_result].
      by destruct (result (primary_result env url doc)).
    + pose proof Hg2 as Hg2'. rewrite <- Hd in Hg2.
      rewrite (fetchMetadata_fallback_error env _ _ _ _ _ Hc Hg Hs Hg2).
      cbn [fst snd rateLimiter visited heap cch log_visit].
      rewrite Hd, <- app_assoc. split; [done|]. split; [by right|]. by left.
  - rewrite (fetchMetadata_named env _ _ _ _ _ Hc Hg Hs).
    unfold cache_result.
    cbn [fst snd rateLimiter visited heap cch with_cch with_heap log_visit].
    split; [done|]. split; [by left|]. right.
    split; [by intros [? _]|].
    eexists. split; [done|]. split; [done|]. split; [done|].
    by rewrite Hd in *.
Qed.

(** The answer made of a record that has just been stored, in full. *)
Lemma respond_stored req w1 h r :
  heap w1 = (h ++ [r])%list ->
  respond req (@pair (option loc) World (Some (length h)) w1)
  = (JSON_metadata StatusOK (set_Duration (elapsed_ms req) r),
     with_heap (h ++ [set_Duration (elapsed_ms req) r])%list w1).
Proof.
  intros Hh. unfold respond, store_Duration, deref. rewrite Hh.
  rewrite list_lookup_middle by done.
  rewrite list_lookup_insert_eq by (rewrite length_app; simpl; lia).
  simpl. do 2 f_equal.
  replace (length h) with (length h + 0)%nat by lia.
  by rewrite insert_app_r.
Qed.

(** X5. For an admitted request with a non-empty URL that passes the
    program's validation and is not in the cache, the answer is 500
    exactly when the fetch fails; otherwise it is 200, the body carries
    the requested URL, its domain and the time the request took, and
    that record is stored under the URL with a lifetime of 30 minutes
    from the end of the request. *)
Theorem miss_answers_500_or_stores P w req lim :
  Allow (rateLimiter w) (t_start req) = (true, lim) ->
  query_url req <> "" ->
  validates env P (query_url req) = true ->
  cache_Get (cch w) (t_start req) (query_url req) = None ->
  (fetch_fails env (t_start req) (query_url req) <->
   fst (handler env P w req)
   = JSON_error StatusInternalServerError "Failed to fetch metadata") /\
  (~ fetch_fails env (t_start req) (query_url req) ->
   exists body,
     fst (handler env P w req) = JSON_metadata StatusOK body /\
     URL body = query_url req /\
     Domain body = getBaseDomain env (query_url req) /\
     Duration body = elapsed_ms req /\
     cch (snd (handler env P w req)) !! query_url req
     = Some (mkItem (length (heap w)) (t_end req + defaultExpiration)) /\
     heap (snd (handler env P w req)) !! length (heap w) = Some body).
Proof.
  intros Ha Hu Hv Hc.
  rewrite (handler_let_in env P w req lim Ha Hu Hv).
  pose proof (fetchMetadata_miss_spec (query_url req) (t_start req) (t_end req)
                (with_limiter lim w) Hc) as (_ & _ & Hout).
  destruct (fetchMetadata env _ _ _ _) as [o w1].
  cbn [fst snd heap cch with_limiter] in Hout.
  destruct Hout as [(Hfail & -> & _ & _)|(Hok & r & -> & Hh & Hcch & Hr)].
  - simpl. split; [done|]. by intros Hn.
  - rewrite (respond_stored req w1 (heap w) r Hh). cbn [fst snd].
    split; [split; [done|by intros [=]]|]. intros _.
    destruct Hr as (Hurl & Hdom & _ & _).
    exists (set_Duration (elapsed_ms req) r).
    cbn [cch heap with_heap]. rewrite Hcch. unfold cache_Set.
    rewrite lookup_insert_eq, list_lookup_middle by done.
    by destruct r.
Qed.

End Serving.

Section History.

Variable env : Env.

Lemma respond_visited req r : visited (snd (respond req r)) = visited (snd r).
Proof. by destruct r as [[p|] w]. Qed.

Lemma same_but_Duration_fields a b :
  same_but_Duration a b ->
  URL a = URL b /\ Domain a = Domain b /\ Images a = Images b.
Proof.
  unfold same_but_Duration, set_Duration. intros [= _ _ Hi _ _ Hd Hu]. done.
Qed.

(** X6. Serving one request visits at most two addresses, and none
    unless the request is admitted, has a non-empty URL that passes the
    program's validation, and misses the cache: then the URL is visited,
    followed at most by its domain. *)
Theorem at_most_two_visits P w req :
  let w' := snd (handler env P w req) in
  visited w' = visited w \/
  ((fst (Allow (rateLimiter w) (t_start req)) = true /\
    query_url req <> "" /\
    validates env P (query_url req) = true /\
    cache_Get (cch w) (t_start req) (query_url req) = None) /\
   (visited w' = (visited w ++ [query_url req])%list \/
    visited w'
    = (visited w ++ [query_url req; getBaseDomain env (query_url req)])%list)).
Proof.
  cbv zeta. rewrite handler_unfold.
  destruct (Allow (rateLimiter w) (t_start req)) as [[] lim]; simpl;
    [|by left].
  destruct (String.eqb_spec (query_url req) "") as [|Hu]; [by left|].
  destruct (validates env P (query_url req)); simpl; [|by left].
  rewrite respond_visited.
  destruct (cache_Get (cch w) (t_start req) (query_url req)) as [p|] eqn:Hc.
  - left. by rewrite (fetchMetadata_hit env _ _ _ (with_limiter lim w) p).
  - right. split; [done|].
    by destruct (fetchMetadata_miss_spec env (query_url req) (t_start req)
                   (t_end req) (with_limiter lim w) Hc) as (_ & Hv & _).
Qed.

(** X12. An answer other than 200 leaves the cache and every stored
    record exactly as they were. *)
Theorem only_success_writes_cache P w req :
  (forall c body, fst (handler env P w req) <> JSON_metadata c body) ->
  cch (snd (handler env P w req)) = cch w /\
  heap (snd (handler env P w req)) = heap w.
Proof.
  rewrite handler_unfold.
  destruct (Allow (rateLimiter w) (t_start req)) as [[] lim]; simpl; [|done].
  destruct (String.eqb (query_url req) ""); [done|].
  destruct (validates env P (query_url req)); simpl; [|done].
  destruct (fetchMetadata env _ _ _ _) as [o w1] eqn:Hf.
  apply fetchMetadata_frame in Hf as (_ & _ & Hnone).
  destruct o as [p|]; simpl.
  - intros Hno. by destruct (Hno _ _ eq_refl).
  - intros _. by apply Hnone.
Qed.

(** The invariant is kept by every request, and a 200 answer made under
    it carries the request's URL. *)
Lemma handler_wf P w req :
  cache_wf env w ->
  cache_wf env (snd (handler env P w req)) /\
  forall c body, fst (handler env P w req) = JSON_metadata c body ->
    c = StatusOK /\ URL body = query_url req /\
    Domain body = getBaseDomain env (query_url req) /\
    Duration body = elapsed_ms req /\
    length (Images body) = 1%nat.
Proof.
  intros Hwf. rewrite handler_unfold.
  destruct (Allow (rateLimiter w) (t_start req)) as [[] lim]; simpl; [|done].
  destruct (String.eqb (query_url req) ""); [done|].
  destruct (validates env P (query_url req)); simpl; [|done].
  assert (Hwf0 : cache_wf env (with_limiter lim w)) by exact Hwf.
  revert Hwf0. generalize (with_limiter lim w). clear w Hwf. intros w Hwf.
  destruct (cache_Get (cch w) (t_start req) (query_url req)) as [p|] eqn:Hc.
  - rewrite (fetchMetadata_hit env _ _ _ w p Hc).
    apply cache_Get_Some in Hc as (e & Hk & _).
    destruct (Hwf _ _ Hk) as (r & Hr & Hu & Hd & Hi). simpl in Hr.
    unfold respond. cbn [fst snd]. split.
    + intros k it Hkit. cbn [cch heap with_heap] in *.
      destruct (Hwf _ _ Hkit) as (rk & Hrk & Huk & Hdk & Hik).
      destruct (store_Duration_lookup p (elapsed_ms req) _ _ _ Hrk)
        as (r' & Hr' & Hsame & _).
      apply same_but_Duration_fields in Hsame as (Hu' & Hd' & Hi').
      exists r'. rewrite <- Hu', <- Hd', <- Hi'. done.
    + intros c body [= <- <-].
      unfold store_Duration, deref. rewrite Hr.
      rewrite list_lookup_insert_eq by by eapply lookup_lt_Some.
      simpl. by destruct r.
  - pose proof (fetchMetadata_miss_spec env (query_url req) (t_start req)
                  (t_end req) w Hc) as (_ & _ & Hout).
    destruct (fetchMetadata env _ _ _ _) as [o w1].
    cbn [fst snd] in Hout.
    destruct Hout as [(_ & -> & Hcch & Hh)|(_ & r & -> & Hh & Hcch & Hr)].
    + simpl. split; [|done]. intros k it Hkit. rewrite Hcch in Hkit.
      rewrite Hh. by apply Hwf.
    + rewrite (respond_stored req w1 (heap w) r Hh). cbn [fst snd].
      destruct Hr as (Hu & Hd & Hi & _). split.
      * intros k it. cbn [cch heap with_heap]. rewrite Hcch. unfold cache_Set.
        destruct (decide (query_url req = k)) as [<-|Hne].
        -- rewrite lookup_insert_eq. intros [= <-]. simpl.
           exists (set_Duration (elapsed_ms req) r).
           rewrite list_lookup_middle by done. by destruct r.
        -- rewrite lookup_insert_ne by done. intros Hkit.
           destruct (Hwf _ _ Hkit) as (rk & Hrk & Hrest).
           exists rk. split; [by apply lookup_app_l_Some|done].
      * intros c body [= <- <-]. by destruct r.
Qed.

Lemma serve_wf P w reqs i req c body :
  cache_wf env w ->
  reqs !! i = Some req ->
  fst (serve (handler env P) w reqs) !! i = Some (JSON_metadata c body) ->
  c = StatusOK /\ URL body = query_url req /\
  Domain body = getBaseDomain env (query_url req) /\
  Duration body = elapsed_ms req /\
  length (Images body) = 1%nat.
Proof.
  revert w i. induction reqs as [|r0 reqs IH]; intros w i Hwf Hreq; [done|].
  cbn [serve].
  destruct (handler_wf P w r0 Hwf) as [Hwf1 Hbody].
  destruct (handler env P w r0) as [resp w1]. cbn [fst snd] in *.
  specialize (IH w1).
  destruct (serve (handler env P) w1 reqs) as [resps w2]. cbn [fst] in *.
  destruct i as [|i]; simpl in *.
  - injection Hreq as <-. intros [= ->]. by apply Hbody.
  - by apply IH.
Qed.

(** X7. Over any sequence of requests served from the initial state,
    every 200 answer, from the network or from the cache, carries the
    URL of its own request, the domain computed from it, the time that
    request took, and exactly one image descriptor. *)
Theorem answers_match_their_requests P reqs i req c body :
  reqs !! i = Some req ->
  fst (serve (handler env P) initial_World reqs) !! i
  = Some (JSON_metadata c body) ->
  c = StatusOK /\ URL body = query_url req /\
  Domain body = getBaseDomain env (query_url req) /\
  Duration body = elapsed_ms req /\
  length (Images body) = 1%nat.
Proof.
  apply serve_wf. intros k it Hk. unfold initial_World in Hk.
  cbn [cch] in Hk. by rewrite lookup_empty in Hk.
Qed.

(** X8. A record stored by a request stops being served once its 30
    minutes are over: a later admitted request for the same URL misses
    the cache and visits the URL again. *)
Theorem expired_entry_is_refetched P w req1 req2 c r1 w1 :
  handler env P w req1 = (JSON_metadata c r1, w1) ->
  cache_Get (cch w) (t_start req1) (query_url req1) = None ->
  query_url req2 = query_url req1 ->
  fst (Allow (rateLimiter w1) (t_start req2)) = true ->
  0 < t_end req1 + defaultExpiration ->
  t_end req1 + defaultExpiration < t_start req2 ->
  cache_Get (cch w1) (t_start req2) (query_url req2) = None /\
  exists l, visited (snd (handler env P w1 req2))
            = (visited w1 ++ query_url req2 :: l)%list.
Proof.
  intros H1 Hmiss Hurl Ha Hpos Hlate.
  destruct (handler_ok_inv env _ _ _ _ _ _ H1)
    as (_ & Hu & Hv & p & e & Hk & _ & He).
  rewrite (He Hmiss) in Hk. clear He.
  assert (Hc : cache_Get (cch w1) (t_start req2) (query_url req2) = None).
  { unfold cache_Get. rewrite Hurl, Hk. unfold expired. simpl.
    destruct (Z.ltb_spec 0 (t_end req1 + defaultExpiration)); [|lia].
    by destruct (Z.ltb_spec (t_end req1 + defaultExpiration) (t_start req2));
      [|lia]. }
  split; [exact Hc|].
  destruct (Allow (rateLimiter w1) (t_start req2)) as [ok lim] eqn:Hallow.
  simpl in Ha. subst ok. rewrite <- Hurl in Hu, Hv.
  rewrite (handler_let_in env P w1 req2 lim Hallow Hu Hv), respond_visited.
  destruct (fetchMetadata_miss_spec env (query_url req2) (t_start req2)
              (t_end req2) (with_limiter lim w1) Hc) as (_ & [-> | ->] & _);
    eauto.
Qed.

(** X11. The two programs differ only on URLs that validation rejects:
    over a sequence of requests whose URLs are missing or accepted, they
    give the same answers and reach the same state. *)
Theorem programs_agree_on_accepted_urls w reqs :
  Forall (fun r => query_url r = "" \/
                   URL_ParseRequestURI env (query_url r) = true) reqs ->
  serve (handler env WithLibrary) w reqs
  = serve (handler env Standalone) w reqs.
Proof.
  intros Hall. revert w. induction Hall as [|req reqs Hreq _ IH]; intros w;
    [done|].
  cbn [serve].
  assert (Hstep : handler env WithLibrary w req = handler env Standalone w req).
  { rewrite !handler_unfold. unfold validates.
    destruct (Allow (rateLimiter w) (t_start req)) as [[] lim]; simpl; [|done].
    destruct Hreq as [-> | ->]; [done|]. done. }
  rewrite Hstep. destruct (handler env Standalone w req) as [resp w1].
  by rewrite IH.
Qed.

(** A hit: the handler writes the duration into the record the cache
    holds, and answers with that record. *)
Lemma handler_hit_overwrites P w req resp w' p r c body :
  handler env P w req = (resp, w') ->
  cache_Get (cch w) (t_start req) (query_url req) = Some p ->
  heap w !! p = Some r ->
  resp = JSON_metadata c body ->
  body = set_Duration (elapsed_ms req) r /\
  heap w' !! p = Some (set_Duration (elapsed_ms req) r) /\
  cache_Get (cch w') (t_start req) (query_url req) = Some p.
Proof.
  intros H Hc Hr ->. revert H. rewrite handler_unfold.
  destruct (Allow (rateLimiter w) (t_start req)) as [[] lim]; simpl; [|done].
  destruct (String.eqb (query_url req) ""); [done|].
  destruct (validates env P (query_url req)); simpl; [|done].
  rewrite (fetchMetadata_hit env _ _ _ (with_limiter lim w) p Hc).
  unfold respond, store_Duration, deref. cbn [heap with_limiter].
  rewrite Hr.
  rewrite list_lookup_insert_eq by by eapply lookup_lt_Some.
  intros [= <- <- <-]. cbn [heap cch with_heap with_limiter default].
  split; [done|]. split; [|done].
  apply list_lookup_insert_eq. by eapply lookup_lt_Some.
Qed.

(** A miss: the record [cch.Set] has just stored, with duration 0, is
    written by the handler afterwards. *)
Lemma handler_miss_overwrites P w req resp w' c body :
  handler env P w req = (resp, w') ->
  cache_Get (cch w) (t_start req) (query_url req) = None ->
  resp = JSON_metadata c body ->
  exists r0,
    Duration r0 = 0 /\
    body = set_Duration (elapsed_ms req) r0 /\
    cch w' !! query_url req
    = Some (mkItem (length (heap w)) (t_end req + defaultExpiration)) /\
    heap w' !! length (heap w) = Some body.
Proof.
  intros H Hc ->. revert H. rewrite handler_unfold.
  destruct (Allow (rateLimiter w) (t_start req)) as [[] lim]; simpl; [|done].
  destruct (String.eqb (query_url req) ""); [done|].
  destruct (validates env P (query_url req)); simpl; [|done].
  pose proof (fetchMetadata_miss_spec env (query_url req) (t_start req)
                (t_end req) (with_limiter lim w) Hc) as (_ & _ & Hout).
  destruct (fetchMetadata env _ _ _ _) as [o w1].
  cbn [fst snd heap cch with_limiter] in Hout.
  destruct Hout as [(_ & -> & _ & _)|(_ & r & -> & Hh & Hcch & Hr)];
    [done|].
  rewrite (respond_stored req w1 (heap w) r Hh).
  intros [= <- <- <-]. exists r. cbn [cch heap with_heap].
  destruct Hr as (_ & _ & _ & Hd).
  split; [done|]. split; [done|]. rewrite Hcch. unfold cache_Set.
  by rewrite lookup_insert_eq, list_lookup_middle.
Qed.

(** C2, as the code has it.  Serving a request keeps every field other
    than the duration of every stored record, and keeps every live cache
    entry.  The duration is written on the stored record itself, which
    is the record the response is made of: on a hit the record the cache
    holds gets the duration of this request, and on a miss the record
    just stored with duration 0 gets it after it was stored. *)
Theorem serving_keeps_all_but_duration P w req resp w' :
  handler env P w req = (resp, w') ->
  (forall p r, heap w !! p = Some r ->
     exists r', heap w' !! p = Some r' /\
       same_but_Duration r r' /\
       (r' = r \/
        (r' = set_Duration (elapsed_ms req) r /\
         resp = JSON_metadata StatusOK r'))) /\
  (forall k it, cch w !! k = Some it -> expired it (t_start req) = false ->
     cch w' !! k = Some it) /\
  (forall p r c body,
     cache_Get (cch w) (t_start req) (query_url req) = Some p ->
     heap w !! p = Some r ->
     resp = JSON_metadata c body ->
     body = set_Duration (elapsed_ms req) r /\
     heap w' !! p = Some (set_Duration (elapsed_ms req) r) /\
     cache_Get (cch w') (t_start req) (query_url req) = Some p) /\
  (forall c body,
     cache_Get (cch w) (t_start req) (query_url req) = None ->
     resp = JSON_metadata c body ->
     exists r0,
       Duration r0 = 0 /\
       body = set_Duration (elapsed_ms req) r0 /\
       cch w' !! query_url req
       = Some (mkItem (length (heap w)) (t_end req + defaultExpiration)) /\
       heap w' !! length (heap w) = Some body).
Proof.
  intros H.
  destruct (handler_keeps_fields env P w req resp w' H) as [Hfields Hlive].
  split; [exact Hfields|]. split; [exact Hlive|]. split.
  - intros p r c body Hc Hr Hresp.
    exact (handler_hit_overwrites P w req resp w' p r c body H Hc Hr Hresp).
  - intros c body Hc Hresp.
    exact (handler_miss_overwrites P w req resp w' c body H Hc Hresp).
Qed.

End History.

(** ** More on the limiter *)

Section Limiting.

Lemma allows_length lim ts : length (fst (allows lim ts)) = length ts.
Proof.
  revert lim. induction ts as [|t ts IH]; intros lim; [done|].
  simpl. destruct (Allow lim t) as [ok lim1]. specialize (IH lim1).
  destruct (allows lim1 ts). simpl in *. by rewrite IH.
Qed.

(** The limiter after a sequence of requests is the limiter run alone
    over their arrival times. *)
Lemma serve_limiter_state env P w reqs :
  rateLimiter (snd (serve (handler env P) w reqs))
  = snd (allows (rateLimiter w) (List.map t_start reqs)).
Proof.
  revert w. induction reqs as [|req reqs IH]; intros w; [done|].
  cbn [serve allows List.map].
  destruct (handler_limiter env P w req) as [_ Hlim].
  destruct (handler env P w req) as [resp w1].
  destruct (Allow (rateLimiter w) (t_start req)) as [ok lim1].
  simpl in Hlim. subst lim1. specialize (IH w1).
  destruct (serve (handler env P) w1 reqs) as [resps w2].
  by destruct (allows (rateLimiter w1) (List.map t_start reqs)).
Qed.



(** Requests at least one second apart all pass, once the first does. *)
Lemma allows_spaced k l ts :
  spaced ts ->
  (forall t1, head ts = Some t1 ->
     token <= Z.min (k + (t1 - Z.min l t1)) (3 * token)) ->
  fst (allows (mkLimiter 1 3 k l) ts) = repeat true (length ts).
Proof.
  revert k l. induction ts as [|t1 ts IH]; intros k l Hsp H1; [done|].
  cbn [allows].
  rewrite (Allow_grant k l t1 _ eq_refl)
    by (specialize (H1 t1 eq_refl); lia).
  specialize (IH (Z.min (k + (t1 - Z.min l t1)) (3 * token) - token) t1).
  destruct (allows _ ts) as [oks lim2]. simpl in *. f_equal.
  apply IH.
  - by destruct ts as [|t2 ts]; [|destruct Hsp].
  - intros t2 Ht2. destruct ts as [|t2' ts]; [done|].
    injection Ht2 as ->. destruct Hsp as [Hgap _].
    specialize (H1 t1 eq_refl). unfold second, token in *. lia.
Qed.



(** X9. With rate 1 per second and burst 3, requests that arrive at
    least one second apart are never answered 429, provided the bucket
    holds a token when the first arrives; from the initial state it
    does. *)
Theorem spaced_requests_never_limited env P w reqs :
  lim_limit (rateLimiter w) = 1 ->
  lim_burst (rateLimiter w) = 3 ->
  spaced (List.map t_start reqs) ->
  (forall r, head reqs = Some r ->
     token <= advance (rateLimiter w) (t_start r)) ->
  List.map is_too_many_requests (fst (serve (handler env P) w reqs))
  = repeat false (length reqs).
Proof.
  intros Hr Hb Hsp H1. rewrite serve_limiter.
  destruct (rateLimiter w) as [r b k l]. simpl in Hr, Hb. subst r b.
  rewrite allows_spaced; [by rewrite List.map_repeat, length_map|done|].
  intros t1 Ht1. destruct reqs as [|r reqs]; [done|].
  injection Ht1 as <-. specialize (H1 r eq_refl).
  by rewrite advance_eq, Z.mul_1_r in H1.
Qed.


(** X13. Which requests are answered 429, and the state the limiter is
    left in, depend on the arrival times alone: not on the URLs, the
    cache, the network or the program. *)
Theorem limiting_depends_on_arrival_times_only
    env env' P P' w w' reqs reqs' :
  rateLimiter w = rateLimiter w' ->
  List.map t_start reqs = List.map t_start reqs' ->
  List.map is_too_many_requests (fst (serve (handler env P) w reqs))
  = List.map is_too_many_requests (fst (serve (handler env' P') w' reqs')) /\
  rateLimiter (snd (serve (handler env P) w reqs))
  = rateLimiter (snd (serve (handler env' P') w' reqs')).
Proof.
  intros Hl Ht.
  rewrite !serve_limiter, !serve_limiter_state. by rewrite Hl, Ht.
Qed.

End Limiting.

(** ** The further properties on concrete requests *)

Lemma serving_keeps_all_but_duration_witness :
  let w1 := snd (extract example_env initial_World first_request) in
  let out := handler example_env Standalone w1 second_request in
  cache_Get (cch w1) (t_start second_request) (query_url second_request)
  = Some 0%nat /\
  heap w1 !! 0%nat = Some (deref (heap w1) 0%nat) /\
  Duration (deref (heap w1) 0%nat) = 5 /\
  heap (snd out) !! 0%nat = Some (set_Duration 7 (deref (heap w1) 0%nat)).
Proof.
  intros w1 out.
  assert (Hc : cache_Get (cch w1) (t_start second_request)
                 (query_url second_request) = Some 0%nat)
    by (vm_compute; reflexivity).
  assert (Hp : heap w1 !! 0%nat = Some (deref (heap w1) 0%nat))
    by (vm_compute; reflexivity).
  assert (Hd : Duration (deref (heap w1) 0%nat) = 5)
    by (vm_compute; reflexivity).
  assert (Hr : fst out = JSON_metadata StatusOK
                           (set_Duration 7 (deref (heap w1) 0%nat)))
    by (vm_compute; reflexivity).
  exact (conj Hc (conj Hp (conj Hd
           (proj1 (proj2 (proj1 (proj2 (proj2
              (serving_keeps_all_but_duration example_env Standalone w1
                 second_request (fst out) (snd out)
                 (surjective_pairing out))))
              0%nat _ _ _ Hc Hp Hr)))))).
Defined.

Lemma title_first_nonempty_wins_witness :
  let w' := snd (fetchMetadata gallery_env image_url 0 5 initial_World) in
  cache_Get (cch initial_World) 0 image_url = None /\
  http_get gallery_env 0 image_url = Some image_doc /\
  fetchMetadata gallery_env image_url 0 5 initial_World = (Some 0%nat, w') /\
  Title (deref (heap w') 0%nat) = "Pictures".
Proof.
  intros w'.
  assert (Hf : fetchMetadata gallery_env image_url 0 5 initial_World
               = (Some 0%nat, w')) by (vm_compute; reflexivity).
  exact (conj eq_refl (conj eq_refl (conj Hf
           (title_first_nonempty_wins gallery_env image_url 0 5
              initial_World image_doc 0%nat w' eq_refl eq_refl Hf)))).
Defined.

Lemma favicon_first_icon_prefixed_witness :
  let w' := snd (fetchMetadata gallery_env image_url 0 5 initial_World) in
  URL_Parse gallery_env image_url <> None /\
  cache_Get (cch initial_World) 0 image_url = None /\
  http_get gallery_env 0 image_url = Some image_doc /\
  fetchMetadata gallery_env image_url 0 5 initial_World = (Some 0%nat, w') /\
  Favicon (deref (heap w') 0%nat) = "http://example.com/touch.png".
Proof.
  intros w'.
  assert (Hp : URL_Parse gallery_env image_url <> None)
    by (vm_compute; discriminate).
  assert (Hf : fetchMetadata gallery_env image_url 0 5 initial_World
               = (Some 0%nat, w')) by (vm_compute; reflexivity).
  exact (conj Hp (conj eq_refl (conj eq_refl (conj Hf
           (favicon_first_icon_prefixed gallery_env image_url 0 5
              initial_World image_doc 0%nat w' Hp eq_refl eq_refl Hf))))).
Defined.

Lemma sitename_from_page_or_root_witness :
  let w' := snd (fetchMetadata example_env page_url 0 5 initial_World) in
  cache_Get (cch initial_World) 0 page_url = None /\
  http_get example_env 0 page_url = Some page_doc /\
  fetchMetadata example_env page_url 0 5 initial_World = (Some 0%nat, w') /\
  last_content (sel_og "og:site_name") page_doc = "" /\
  exists doc2,
    http_get example_env 0 (getBaseDomain example_env page_url) = Some doc2 /\
    Sitename (deref (heap w') 0%nat) = last_content (sel_og "og:title") doc2.
Proof.
  intros w'.
  assert (Hf : fetchMetadata example_env page_url 0 5 initial_World
               = (Some 0%nat, w')) by (vm_compute; reflexivity).
  exact (conj eq_refl (conj eq_refl (conj Hf (conj eq_refl
           (proj2 (sitename_from_page_or_root example_env page_url 0 5
                     initial_World page_doc 0%nat w' eq_refl eq_refl Hf)
              eq_refl))))).
Defined.

Lemma image_descriptor_fields_witness :
  let w' := snd (fetchMetadata gallery_env image_url 0 5 initial_World) in
  cache_Get (cch initial_World) 0 image_url = None /\
  http_get gallery_env 0 image_url = Some image_doc /\
  fetchMetadata gallery_env image_url 0 5 initial_World = (Some 0%nat, w') /\
  Images (deref (heap w') 0%nat)
  = [mkWebImage "http://example.com/b.png" "A picture" "" 640 0].
Proof.
  intros w'.
  assert (Hf : fetchMetadata gallery_env image_url 0 5 initial_World
               = (Some 0%nat, w')) by (vm_compute; reflexivity).
  exact (conj eq_refl (conj eq_refl (conj Hf
           (image_descriptor_fields gallery_env image_url 0 5
              initial_World image_doc 0%nat w' eq_refl eq_refl Hf)))).
Defined.

Lemma miss_answers_500_or_stores_witness :
  Allow (rateLimiter initial_World) (t_start first_request)
  = (true, mkLimiter 1 3 (2 * token) 0) /\
  query_url first_request <> "" /\
  validates example_env WithLibrary (query_url first_request) = true /\
  cache_Get (cch initial_World) (t_start first_request)
    (query_url first_request) = None /\
  ~ fetch_fails example_env (t_start first_request) (query_url first_request) /\
  exists body,
    fst (handler example_env WithLibrary initial_World first_request)
    = JSON_metadata StatusOK body /\
    URL body = page_url /\ Duration body = 5.
Proof.
  assert (Hu : query_url first_request <> "") by (vm_compute; discriminate).
  assert (Hok : ~ fetch_fails example_env (t_start first_request)
                    (query_url first_request))
    by (vm_compute; intros [_ H]; discriminate H).
  destruct (proj2 (miss_answers_500_or_stores example_env WithLibrary
                     initial_World first_request (mkLimiter 1 3 (2 * token) 0)
                     eq_refl Hu eq_refl eq_refl) Hok)
    as (body & Hb & Hurl & _ & Hdur & _).
  exact (conj eq_refl (conj Hu (conj eq_refl (conj eq_refl (conj Hok
           (ex_intro _ body (conj Hb (conj Hurl Hdur)))))))).
Defined.

Lemma only_success_writes_cache_witness :
  let out := handler example_env Standalone initial_World missing_request in
  (forall c body, fst out <> JSON_metadata c body) /\
  cch (snd out) = cch initial_World /\ heap (snd out) = heap initial_World.
Proof.
  intros out.
  assert (Hno : forall c body, fst out <> JSON_metadata c body)
    by (intros c body; vm_compute; discriminate).
  exact (conj Hno (only_success_writes_cache example_env Standalone
                     initial_World missing_request Hno)).
Defined.

Lemma answers_match_their_requests_witness :
  let reqs := [first_request; second_request] in
  let resps := fst (serve (handler example_env Standalone) initial_World reqs) in
  reqs !! 1%nat = Some second_request /\
  exists body,
    resps !! 1%nat = Some (JSON_metadata StatusOK body) /\
    URL body = page_url /\ Duration body = 7 /\
    length (Images body) = 1%nat.
Proof.
  intros reqs resps.
  assert (Hr : exists body, resps !! 1%nat = Some (JSON_metadata StatusOK body))
    by (vm_compute; eexists; reflexivity).
  destruct Hr as [body Hr].
  destruct (answers_match_their_requests example_env Standalone reqs 1%nat
              second_request StatusOK body eq_refl Hr)
    as (_ & Hu & _ & Hd & Hi).
  exact (conj eq_refl (ex_intro _ body (conj Hr (conj Hu (conj Hd Hi))))).
Defined.

Lemma expired_entry_is_refetched_witness :
  let out1 := handler example_env Standalone initial_World first_request in
  let w1 := snd out1 in
  out1 = (JSON_metadata StatusOK (deref (heap w1) 0%nat), w1) /\
  cache_Get (cch initial_World) (t_start first_request)
    (query_url first_request) = None /\
  query_url late_request = query_url first_request /\
  fst (Allow (rateLimiter w1) (t_start late_request)) = true /\
  0 < t_end first_request + defaultExpiration /\
  t_end first_request + defaultExpiration < t_start late_request /\
  cache_Get (cch w1) (t_start late_request) (query_url late_request) = None /\
  exists l, visited (snd (handler example_env Standalone w1 late_request))
            = (visited w1 ++ query_url late_request :: l)%list.
Proof.
  intros out1 w1.
  assert (H1 : out1 = (JSON_metadata StatusOK (deref (heap w1) 0%nat), w1))
    by (vm_compute; reflexivity).
  assert (Ha : fst (Allow (rateLimiter w1) (t_start late_request)) = true)
    by (vm_compute; reflexivity).
  assert (Hpos : 0 < t_end first_request + defaultExpiration)
    by (vm_compute; reflexivity).
  assert (Hlate : t_end first_request + defaultExpiration
                  < t_start late_request) by (vm_compute; reflexivity).
  exact (conj H1 (conj eq_refl (conj eq_refl (conj Ha (conj Hpos (conj Hlate
           (expired_entry_is_refetched example_env Standalone initial_World
              first_request late_request StatusOK (deref (heap w1) 0%nat) w1
              H1 eq_refl eq_refl Ha Hpos Hlate))))))).
Defined.

Lemma programs_agree_on_accepted_urls_witness :
  let reqs := [first_request; empty_request; second_request] in
  Forall (fun r => query_url r = "" \/
                   URL_ParseRequestURI example_env (query_url r) = true) reqs /\
  serve (handler example_env WithLibrary) initial_World reqs
  = serve (handler example_env Standalone) initial_World reqs.
Proof.
  intros reqs.
  assert (Hall : Forall (fun r => query_url r = "" \/
                   URL_ParseRequestURI example_env (query_url r) = true) reqs).
  { repeat constructor; first [by left | by right]. }
  exact (conj Hall (programs_agree_on_accepted_urls example_env initial_World
                      reqs Hall)).
Defined.

Lemma spaced_requests_never_limited_witness :
  let reqs := List.map request_at [0; second; 2 * second + 5; 4 * second] in
  spaced (List.map t_start reqs) /\
  List.map is_too_many_requests
    (fst (serve (handler example_env WithLibrary) initial_World reqs))
  = [false; false; false; false].
Proof.
  intros reqs.
  assert (Hsp : spaced (List.map t_start reqs)).
  { vm_compute. repeat split; discriminate. }
  assert (H1 : forall r, head reqs = Some r ->
            token <= advance (rateLimiter initial_World) (t_start r)).
  { intros r [= <-]. vm_compute. discriminate. }
  exact (conj Hsp (spaced_requests_never_limited example_env WithLibrary
                     initial_World reqs eq_refl eq_refl Hsp H1)).
Defined.


Lemma limiting_depends_on_arrival_times_only_witness :
  let reqs := [first_request; second_request] in
  let reqs' := [mkRequest "" 0 1; mkRequest "not-a-url" (6 * millisecond) 0] in
  List.map t_start reqs = List.map t_start reqs' /\
  List.map is_too_many_requests
    (fst (serve (handler example_env Standalone) initial_World reqs))
  = List.map is_too_many_requests
      (fst (serve (handler gallery_env WithLibrary) initial_World reqs')).
Proof.
  intros reqs reqs'.
  exact (conj eq_refl
           (proj1 (limiting_depends_on_arrival_times_only example_env
                     gallery_env Standalone WithLibrary initial_World
                     initial_World reqs reqs' eq_refl eq_refl))).
Defined.
